(** * Attendance backend (app.py): authorization gate, store writes and
      report generation, embedded as pure functions over an explicit world.

    The Flask handlers of [app.py] read an ambient session dictionary, talk
    to a relational store through a psycopg2 connection and, for one
    endpoint, call a text-generation service.  Here every handler is a
    function from its request data and a [world] (store contents, session
    dictionary, log of prompts sent to the service) to an [outcome] and the
    world it leaves behind. *)

From stdpp Require Import base strings list gmap sorting pretty.
From Stdlib Require Import ZArith Lia.

Local Open Scope string_scope.
Local Open Scope Z_scope.
Local Set Warnings "-register-all".

(** ** Values *)

(** What [jsonify] is given: Python dictionaries, lists and scalars. *)
Inductive json : Type :=
  | JNull
  | JBool (b : bool)
  | JNum (n : Z)
  | JStr (s : string)
  | JArr (items : list json)
  | JObj (fields : list (string * json)).

(** Values kept in the Flask [session] dictionary. *)
Inductive pyval : Type :=
  | PNone
  | PInt (n : Z)
  | PStr (s : string).

Global Instance pyval_eq_dec : EqDecision pyval.
Proof. solve_decision. Defined.

(** A request field read with [data.get(key)]: [None] when the key is absent
    or null. *)
Definition of_field (o : option string) : pyval :=
  match o with Some s => PStr s | None => PNone end.

Definition json_of_field (o : option string) : json :=
  match o with Some s => JStr s | None => JNull end.

(** Python truthiness of the request fields the handlers test. *)
Definition truthy_str (o : option string) : bool :=
  match o with
  | Some s => negb (String.eqb s EmptyString)
  | None => false
  end.

Definition truthy_int (o : option Z) : bool :=
  match o with
  | Some n => negb (n =? 0)%Z
  | None => false
  end.

(** A Flask response: [jsonify(body), status]. *)
Record response : Type := Response { status : Z; body : json }.

Definition jsonify (b : json) : response := Response 200 b.
Definition message (m : string) : json := JObj [("message", JStr m)].

(** ** The relational store *)

Record admin_row : Type := AdminRow {
  admin_id : Z; admin_username : string; admin_password : string }.

Record teacher_row : Type := TeacherRow {
  teacher_id : Z; teacher_name : string; teacher_email : string;
  teacher_password : string; teacher_class_id : Z;
  teacher_phone : option string; is_approved : bool }.

Record class_row : Type := ClassRow { class_id : Z; class_name : string }.

Record student_row : Type := StudentRow {
  student_id : Z; student_name : string; student_username : string;
  student_password : string; student_class_id : Z }.

(** [att_date] is the calendar day as an ordinal; the store orders by it. *)
Record attendance_row : Type := AttendanceRow {
  att_student_id : Z; att_date : Z; att_status : string }.

Record database : Type := Database {
  admins : list admin_row;
  teachers : list teacher_row;
  students : list student_row;
  classes : list class_row;
  attendance : list attendance_row }.

(** [psycopg2.Error] and its subclass [psycopg2.IntegrityError]; each carries
    the text that [str(e)] renders. *)
Inductive psycopg2_Error : Type :=
  | IntegrityError (pgerror : string)
  | OtherError (pgerror : string).

Definition str_error (e : psycopg2_Error) : string :=
  match e with IntegrityError t => t | OtherError t => t end.

Inductive violation : Type := unique_violation | foreign_key_violation.

(** ** Collaborators outside the repository *)

(** The password-hash library, the text-generation service, the store's
    diagnostics and id columns, and the process environment.
    [check_password_hash] yields [None] when the library raises instead of
    answering; [generate_content p] is [inl text] when the service answers
    and [inr msg] when the call raises an exception whose text is [msg].

    Modelled from the spec: the table declarations are not part of the
    source, and neither the source nor the spec says which id the store
    gives a new row ("{id, ...}" is all the spec has).  [next_id ids] stands
    for the id the store hands to a row inserted into a table whose rows
    carry [ids].  Whatever the store's rule (a sequence, say, which also
    remembers the values it has handed out), the id is one no row of the
    table carries ([next_id_fresh]); the properties below rely on that
    alone and never on which id is chosen. *)
Class Collaborators : Type := {
  check_password_hash : string -> option string -> option bool;
  generate_password_hash : string -> string;
  generate_content : string -> string + string;
  server_message : violation -> string;
  str_date : Z -> string;
  GEMINI_API_KEY : option string;
  next_id : list Z -> Z;
  next_id_fresh : ∀ ids : list Z, next_id ids ∉ ids }.

(** ** Connections and transactions *)

(** A psycopg2 connection: statements act on [pending]; [commit] publishes
    it, [rollback] discards it, and [close] leaves the store with whatever
    was committed. *)
Record connection : Type := Connection {
  committed : database; pending : database }.

Definition get_db_connection (db : database) : connection :=
  Connection db db.

Definition commit (c : connection) : connection :=
  Connection (pending c) (pending c).

Definition rollback (c : connection) : connection :=
  Connection (committed c) (committed c).

Definition close (c : connection) : database := committed c.

Definition with_pending (c : connection) (db : database) : connection :=
  Connection (committed c) db.

(** ** The world a handler runs in *)

Record world : Type := World {
  store : database;
  session : gmap string pyval;
  gemini_calls : list string }.

Definition with_store (w : world) (db : database) : world :=
  World db (session w) (gemini_calls w).

Definition with_session (w : world) (s : gmap string pyval) : world :=
  World (store w) s (gemini_calls w).

Definition with_call (w : world) (prompt : string) : world :=
  World (store w) (session w) (gemini_calls w ++ [prompt]).

(** A view function either returns a response or lets an exception escape. *)
Inductive outcome : Type :=
  | Returned (r : response)
  | Raised.

Definition handler (A : Type) : Type := A -> world -> outcome * world.

(** ** Authorization gate *)

Definition authentication_required : response :=
  Response 401 (message "Authentication required").

Definition forbidden : response := Response 403 (message "Forbidden").

(** [login_required(role)(f)]: the wrapper that replaces [f]. *)
Definition login_required {A : Type} (role : option string) (f : handler A)
  : handler A :=
  fun args w =>
    if decide (session w !! "user_id" = None) then
      (Returned authentication_required, w)
    else if truthy_str role && bool_decide (default PNone (session w !! "role") ≠ of_field role) then
      (Returned forbidden, w)
    else f args w.

(** ** Statements *)

(** [cursor.fetchone()]. *)
Definition fetchone {A : Type} (rows : list A) : option A := head rows.

(** [column = %s] with a parameter that may be [None] (SQL NULL equals
    nothing). *)
Definition sql_eq {A : Type} (column : A) (param : option A) : Prop :=
  param = Some column.

Global Instance sql_eq_dec {A : Type} `{EqDecision A} (column : A)
  (param : option A) : Decision (sql_eq column param).
Proof. unfold sql_eq. apply _. Defined.

(** [SELECT id, username, password FROM admins WHERE username = %s]. *)
Definition select_admin (username : option string) (c : connection)
  : list (Z * string * string) :=
  (λ r, (admin_id r, admin_username r, admin_password r))
    <$> filter (λ r, sql_eq (admin_username r) username) (admins (pending c)).

(** [SELECT id, name, password FROM teachers WHERE email = %s AND
    is_approved = true]. *)
Definition select_approved_teacher (username : option string) (c : connection)
  : list (Z * string * string) :=
  (λ r, (teacher_id r, teacher_name r, teacher_password r))
    <$> filter (λ r, sql_eq (teacher_email r) username ∧ is_approved r = true)
          (teachers (pending c)).

(** [SELECT id, name, password FROM students WHERE username = %s]. *)
Definition select_student (username : option string) (c : connection)
  : list (Z * string * string) :=
  (λ r, (student_id r, student_name r, student_password r))
    <$> filter (λ r, sql_eq (student_username r) username)
          (students (pending c)).

(** [SELECT name FROM students WHERE id = %s]. *)
Definition select_student_name (sid : option Z) (c : connection)
  : list string :=
  student_name <$> filter (λ r, sql_eq (student_id r) sid) (students (pending c)).

(** Rows are read most recent day first. *)
Definition date_desc (r1 r2 : attendance_row) : Prop :=
  att_date r2 ≤ att_date r1.

Global Instance date_desc_dec r1 r2 : Decision (date_desc r1 r2).
Proof. unfold date_desc. apply _. Defined.

Definition attendance_of (sid : option Z) (db : database)
  : list attendance_row :=
  filter (λ r, sql_eq (att_student_id r) sid) (attendance db).

(** [SELECT date, status FROM attendance WHERE student_id = %s
    ORDER BY date DESC LIMIT 30], before the projection. *)
Definition recent_attendance (sid : option Z) (db : database)
  : list attendance_row :=
  take 30 (merge_sort date_desc (attendance_of sid db)).

Definition select_attendance (sid : option Z) (c : connection)
  : list (Z * string) :=
  (λ r, (att_date r, att_status r)) <$> recent_attendance sid (pending c).

Definition set_teachers (db : database) (ts : list teacher_row) : database :=
  Database (admins db) ts (students db) (classes db) (attendance db).

Definition set_classes (db : database) (cs : list class_row) : database :=
  Database (admins db) (teachers db) (students db) cs (attendance db).

Section statements.
Context {env : Collaborators}.

(** Modelled from the spec: the table declarations are not part of the
    source.  A teacher's email is unique ("rejects duplicate email") and
    [class_id] references a class ("class_id→Class"); a new teacher starts
    with [is_approved = false].  The statement is
    [INSERT INTO teachers (name, email, password, class_id, phone) VALUES
    (%s, %s, %s, %s, %s)]. *)
Definition insert_teacher (name email password : string) (cid : Z)
  (phone : option string) (c : connection) : psycopg2_Error + connection :=
  let db := pending c in
  if decide (Exists (λ t, teacher_email t = email) (teachers db)) then
    inl (IntegrityError (server_message unique_violation))
  else if decide (Forall (λ k, class_id k ≠ cid) (classes db)) then
    inl (IntegrityError (server_message foreign_key_violation))
  else
    inr (with_pending c (set_teachers db (teachers db ++
      [TeacherRow (next_id (teacher_id <$> teachers db)) name email password
         cid phone false]))).

(** Modelled from the spec: the table declarations are not part of the
    source.  "A Class cannot be deleted while any Teacher or Student
    references it"; deleting an id that names no class removes nothing. *)
Definition referenced (cid : Z) (db : database) : Prop :=
  Exists (λ t, teacher_class_id t = cid) (teachers db)
  ∨ Exists (λ s, student_class_id s = cid) (students db).

(** [DELETE FROM classes WHERE id = %s], refused while the class is
    referenced. *)
Definition delete_class_row (cid : Z) (c : connection)
  : psycopg2_Error + connection :=
  let db := pending c in
  if decide (Exists (λ k, class_id k = cid) (classes db) ∧ referenced cid db)
  then inl (IntegrityError (server_message foreign_key_violation))
  else inr (with_pending c
              (set_classes db (filter (λ k, class_id k ≠ cid) (classes db)))).
End statements.

(** [UPDATE teachers SET is_approved = true WHERE id = %s]. *)
Definition approve_row (tid : option Z) (t : teacher_row) : teacher_row :=
  if decide (sql_eq (teacher_id t) tid) then
    TeacherRow (teacher_id t) (teacher_name t) (teacher_email t)
      (teacher_password t) (teacher_class_id t) (teacher_phone t) true
  else t.

Definition update_is_approved (tid : option Z) (c : connection) : connection :=
  with_pending c (set_teachers (pending c) (approve_row tid <$> teachers (pending c))).

(** ** Request bodies *)

Record login_request : Type := LoginRequest {
  lr_username : option string;
  lr_password : option string;
  lr_role : option string }.

Record signup_request : Type := SignupRequest {
  su_name : option string;
  su_email : option string;
  su_password : option string;
  su_class_id : option Z;
  su_phone : option string }.

(** ** Fixed responses *)

Definition invalid_credentials : response :=
  Response 401 (message "Invalid credentials or account not approved").

Definition missing_fields : response :=
  Response 400 (message "Missing required fields").

Definition email_exists : response :=
  Response 409 (message "Email address already exists").

Definition signup_successful : response :=
  Response 201 (message "Signup successful! Please wait for admin approval.").

Definition teacher_approved : response :=
  jsonify (message "Teacher approved successfully").

Definition class_deleted : response := jsonify (message "Class deleted").

Definition cannot_delete_prefix : string :=
  "Cannot delete class, it may be in use. DB Error: ".

Definition key_not_configured : response :=
  Response 500 (message "Gemini API key is not configured on the server.").

Definition student_not_found : response :=
  Response 404 (message "Student not found").

Definition report (text : string) : response :=
  jsonify (JObj [("report", JStr text)]).

Definition ai_error_prefix : string :=
  "Failed to generate report due to an AI service error: ".

(** ** Prompt rendering *)

Definition nl : string := String (Ascii.ascii_of_nat 10) EmptyString.

(** [sep.join(parts)]. *)
Fixpoint join (sep : string) (parts : list string) : string :=
  match parts with
  | [] => EmptyString
  | [p] => p
  | p :: rest => p +:+ sep +:+ join sep rest
  end.

Definition prompt_head : string :=
  nl +:+ "    As a helpful teacher's assistant, analyze the following recent attendance data for a student named ".

Definition prompt_middle : string :=
  " and write a brief, constructive performance summary (2-4 sentences). "
  +:+ nl +:+
  "    Focus on patterns, not just listing dates. Be positive if the attendance is good, or gently concerned if there are issues like frequent absences or half-days."
  +:+ nl +:+ nl +:+ "    Data: ".

Definition prompt_tail : string := nl +:+ "    ".

Definition render_prompt (student_name attendance_str : string) : string :=
  prompt_head +:+ student_name +:+ prompt_middle +:+ attendance_str
  +:+ prompt_tail.

(** ** View functions *)

(** A view that only reads closes its connection with nothing pending, so
    the store it leaves is the one it found. *)

Section views.
Context {env : Collaborators}.

(** [f"{record[0]}: {record[1]}"]. *)
Definition render_record (record : Z * string) : string :=
  str_date record.1 +:+ ": " +:+ record.2.

(** The credential row the chosen role's table yields, if any. *)
Definition user_data_for (data : login_request) (c : connection)
  : option (Z * string * string) :=
  if decide (lr_role data = Some "admin") then
    fetchone (select_admin (lr_username data) c)
  else if decide (lr_role data = Some "teacher") then
    fetchone (select_approved_teacher (lr_username data) c)
  else if decide (lr_role data = Some "student") then
    fetchone (select_student (lr_username data) c)
  else None.

Definition login_success (uid : Z) (name : string) (role : option string)
  : response :=
  jsonify (JObj [("success", JBool true);
                 ("user", JObj [("id", JNum uid); ("name", JStr name);
                                ("role", json_of_field role)])]).

Definition login : handler login_request :=
  fun data w =>
    let conn := get_db_connection (store w) in
    let user_data := user_data_for data conn in
    match user_data with
    | Some (uid, uname, pwhash) =>
        match check_password_hash pwhash (lr_password data) with
        | Some true =>
            let name :=
              if decide (lr_role data ≠ Some "admin") then uname else "Admin" in
            let s := <["user_id" := PInt uid]> (session w) in
            let s := <["role" := of_field (lr_role data)]> s in
            let s := <["name" := PStr name]> s in
            (Returned (login_success uid name (lr_role data)),
             with_session w s)
        | Some false => (Returned invalid_credentials, w)
        | None => (Raised, w)
        end
    | None => (Returned invalid_credentials, w)
    end.

Definition signup_teacher : handler signup_request :=
  fun data w =>
    if negb (forallb id [truthy_str (su_name data); truthy_str (su_email data);
                         truthy_str (su_password data);
                         truthy_int (su_class_id data)]) then
      (Returned missing_fields, w)
    else
      match su_name data, su_email data, su_password data, su_class_id data with
      | Some name, Some email, Some password, Some cid =>
          let hashed_password := generate_password_hash password in
          let conn := get_db_connection (store w) in
          match insert_teacher name email hashed_password cid
                  (su_phone data) conn with
          | inr conn =>
              let conn := commit conn in
              (Returned signup_successful, with_store w (close conn))
          | inl (IntegrityError _) =>
              (Returned email_exists, with_store w (close conn))
          | inl (OtherError _) => (Raised, with_store w (close conn))
          end
      | _, _, _, _ => (Returned missing_fields, w)
      end.

Definition approve_teacher_view : handler (option Z) :=
  fun tid w =>
    let conn := get_db_connection (store w) in
    let conn := update_is_approved tid conn in
    let conn := commit conn in
    (Returned teacher_approved, with_store w (close conn)).

Definition approve_teacher : handler (option Z) :=
  login_required (Some "admin") approve_teacher_view.

Definition delete_class_view : handler Z :=
  fun cid w =>
    let conn := get_db_connection (store w) in
    match delete_class_row cid conn with
    | inr conn =>
        let conn := commit conn in
        (Returned class_deleted, with_store w (close conn))
    | inl e =>
        let conn := rollback conn in
        (Returned (Response 400 (message (cannot_delete_prefix +:+ str_error e))),
         with_store w (close conn))
    end.

Definition delete_class : handler Z :=
  login_required (Some "admin") delete_class_view.

Definition generate_student_report_view : handler (option Z) :=
  fun sid w =>
    if negb (truthy_str GEMINI_API_KEY) then (Returned key_not_configured, w)
    else
      let conn := get_db_connection (store w) in
      match fetchone (select_student_name sid conn) with
      | None => (Returned student_not_found, w)
      | Some student_name =>
          let attendance_records := select_attendance sid conn in
          match attendance_records with
          | [] =>
              (Returned (report (student_name +:+ " has no recent attendance records.")), w)
          | _ :: _ =>
              let attendance_str :=
                join ", " (render_record <$> attendance_records) in
              let prompt := render_prompt student_name attendance_str in
              let w := with_call w prompt in
              match generate_content prompt with
              | inl report_text => (Returned (report report_text), w)
              | inr e =>
                  (Returned (Response 500 (message (ai_error_prefix +:+ e))), w)
              end
          end
      end.

Definition generate_student_report : handler (option Z) :=
  login_required (Some "teacher") generate_student_report_view.
End views.

(** ** A concrete deployment, for running the views *)

Module Sample.
Definition hash_of (password : string) : string := "pbkdf2$" +:+ password.

(** The id column of the sample store counts on from the largest id. *)
Definition after_largest (ids : list Z) : Z := 1 + foldr Z.max 0 ids.

Lemma after_largest_above (ids : list Z) (x : Z) :
  x ∈ ids → x < after_largest ids.
Proof.
  unfold after_largest. induction ids as [|y ids IH]; intros Hin.
  - by apply elem_of_nil in Hin.
  - apply elem_of_cons in Hin as [-> | Hin]; simpl; [lia|].
    specialize (IH Hin). lia.
Qed.

Lemma after_largest_fresh (ids : list Z) : after_largest ids ∉ ids.
Proof. intros Hin%after_largest_above. lia. Qed.

Definition env : Collaborators := {|
  check_password_hash pwhash password :=
    match password with
    | Some p => Some (bool_decide (pwhash = hash_of p))
    | None => None
    end;
  generate_password_hash := hash_of;
  generate_content prompt := inl ("Summary: " +:+ prompt);
  server_message v :=
    match v with
    | unique_violation => "duplicate key value violates unique constraint"
    | foreign_key_violation => "violates foreign key constraint"
    end;
  str_date d := "day " +:+ pretty d;
  GEMINI_API_KEY := Some "k";
  next_id := after_largest;
  next_id_fresh := after_largest_fresh |}.

(** The same deployment without the service credential. *)
Definition env_no_key : Collaborators := {|
  check_password_hash := @check_password_hash env;
  generate_password_hash := hash_of;
  generate_content := @generate_content env;
  server_message := @server_message env;
  str_date := @str_date env;
  GEMINI_API_KEY := None;
  next_id := after_largest;
  next_id_fresh := after_largest_fresh |}.

Definition db : database := {|
  admins := [AdminRow 1 "root" (hash_of "s3cret")];
  teachers := [TeacherRow 1 "Ann" "ann@x.com" (hash_of "pa") 1 None true;
               TeacherRow 2 "Bob" "bob@x.com" (hash_of "pb") 1 (Some "555") false];
  students := [StudentRow 1 "Cy" "cy" (hash_of "pc") 1;
               StudentRow 2 "Di" "di" (hash_of "pd") 1];
  classes := [ClassRow 1 "1A"; ClassRow 2 "2B"];
  attendance := [AttendanceRow 1 10 "present"; AttendanceRow 1 12 "absent";
                 AttendanceRow 1 11 "half-day"] |}.

Definition anonymous : world := World db ∅ [].

Definition as_admin : world :=
  World db (<["name" := PStr "Admin"]> (<["role" := PStr "admin"]>
             (<["user_id" := PInt 1]> ∅))) [].

Definition as_teacher : world :=
  World db (<["name" := PStr "Ann"]> (<["role" := PStr "teacher"]>
             (<["user_id" := PInt 1]> ∅))) [].
End Sample.

(** ** The remaining views *)

(** The order the store sorts text by in [ORDER BY name]: its collation. *)
Class Collation : Type := {
  name_le : relation string;
  name_le_dec :: RelDecision name_le;
  name_le_total :: Total name_le;
  name_le_trans :: Transitive name_le }.

Definition json_of_pyval (v : pyval) : json :=
  match v with
  | PNone => JNull
  | PInt n => JNum n
  | PStr s => JStr s
  end.

Definition logged_out : response :=
  Response 401 (JObj [("success", JBool false)]).

(** [session.clear()] and the fixed answer. *)
Definition logout : handler unit :=
  fun _ w =>
    (Returned (jsonify (JObj [("success", JBool true)])), with_session w ∅).

(** [session['name']] and [session['role']] raise [KeyError] when the key is
    absent. *)
Definition check_session : handler unit :=
  fun _ w =>
    if decide (session w !! "user_id" = None) then (Returned logged_out, w)
    else
      match session w !! "user_id", session w !! "name", session w !! "role" with
      | Some uid, Some name, Some role =>
          (Returned
             (jsonify (JObj [("success", JBool true);
                             ("user", JObj [("id", json_of_pyval uid);
                                            ("name", json_of_pyval name);
                                            ("role", json_of_pyval role)])])),
           w)
      | _, _, _ => (Raised, w)
      end.

(** The body of [POST /api/admin/classes] carries the name as a string. *)
Inductive classes_request : Type :=
  | ListClasses
  | CreateClass (name : string).

Definition class_json (row : Z * string) : json :=
  JObj [("id", JNum row.1); ("name", JStr row.2)].

Definition classes_listing (rows : list (Z * string)) : response :=
  jsonify (JObj [("classes", JArr (class_json <$> rows))]).

Definition pending_json (r : Z * string * string * option string * string)
  : json :=
  match r with
  | (tid, name, email, phone, cname) =>
      JObj [("id", JNum tid); ("name", JStr name); ("email", JStr email);
            ("phone", json_of_field phone); ("class_name", JStr cname)]
  end.

Definition student_json (s : Z * string * string) : json :=
  match s with
  | (sid, name, username) =>
      JObj [("id", JNum sid); ("name", JStr name); ("username", JStr username)]
  end.

Definition class_not_found : response :=
  Response 404 (message "Could not find assigned class").

(** [t.id = %s] with the value kept in the session: [login] stores the
    integer id of the credential row there. *)
Definition sql_eq_val (column : Z) (param : pyval) : Prop :=
  param = PInt column.

Global Instance sql_eq_val_dec (column : Z) (param : pyval) :
  Decision (sql_eq_val column param).
Proof. unfold sql_eq_val. apply _. Defined.

(** [SELECT t.id, t.name, t.email, t.phone, c.name FROM teachers t JOIN
    classes c ON t.class_id = c.id WHERE t.is_approved = false]. *)
Definition select_pending_teachers (c : connection)
  : list (Z * string * string * option string * string) :=
  t ← filter (λ t, is_approved t = false) (teachers (pending c));
  k ← filter (λ k, teacher_class_id t = class_id k) (classes (pending c));
  [(teacher_id t, teacher_name t, teacher_email t, teacher_phone t,
    class_name k)].

(** [SELECT c.id, c.name FROM classes c JOIN teachers t ON c.id = t.class_id
    WHERE t.id = %s]. *)
Definition select_teacher_class (uid : pyval) (c : connection)
  : list (Z * string) :=
  k ← classes (pending c);
  t ← filter (λ t, class_id k = teacher_class_id t ∧ sql_eq_val (teacher_id t) uid)
        (teachers (pending c));
  [(class_id k, class_name k)].

(** Modelled from the spec: the table declarations are not part of the
    source.  A class is an id and a name ("Class: {id, name}") and creating
    one states no constraint.  The statement is
    [INSERT INTO classes (name) VALUES (%s)]. *)
Definition insert_class {env : Collaborators} (name : string) (c : connection)
  : connection :=
  with_pending c
    (set_classes (pending c)
       (classes (pending c)
        ++ [ClassRow (next_id (class_id <$> classes (pending c))) name])).

Definition get_pending_teachers_view : handler unit :=
  fun _ w =>
    let conn := get_db_connection (store w) in
    let teachers := pending_json <$> select_pending_teachers conn in
    (Returned (jsonify (JObj [("teachers", JArr teachers)])), w).

Definition get_pending_teachers : handler unit :=
  login_required (Some "admin") get_pending_teachers_view.

Section ordered_views.
Context {env : Collaborators} {collation : Collation}.

Definition by_class_name (k1 k2 : class_row) : Prop :=
  name_le (class_name k1) (class_name k2).

Global Instance by_class_name_dec k1 k2 : Decision (by_class_name k1 k2).
Proof. unfold by_class_name. apply _. Defined.

Definition by_student_name (s1 s2 : student_row) : Prop :=
  name_le (student_name s1) (student_name s2).

Global Instance by_student_name_dec s1 s2 : Decision (by_student_name s1 s2).
Proof. unfold by_student_name. apply _. Defined.

(** [SELECT id, name FROM classes ORDER BY name]. *)
Definition select_classes (c : connection) : list (Z * string) :=
  (λ k, (class_id k, class_name k))
    <$> merge_sort by_class_name (classes (pending c)).

(** [SELECT id, name, username FROM students WHERE class_id = %s
    ORDER BY name]. *)
Definition select_class_students (cid : Z) (c : connection)
  : list (Z * string * string) :=
  (λ s, (student_id s, student_name s, student_username s))
    <$> merge_sort by_student_name
          (filter (λ s, student_class_id s = cid) (students (pending c))).

Definition get_classes : handler unit :=
  fun _ w =>
    let conn := get_db_connection (store w) in
    (Returned (classes_listing (select_classes conn)), w).

Definition manage_classes_view : handler classes_request :=
  fun req w =>
    let conn := get_db_connection (store w) in
    let conn :=
      match req with
      | CreateClass name => commit (insert_class name conn)
      | ListClasses => conn
      end in
    (Returned (classes_listing (select_classes conn)),
     with_store w (close conn)).

Definition manage_classes : handler classes_request :=
  login_required (Some "admin") manage_classes_view.

(** [session['user_id']] raises [KeyError] when the key is absent. *)
Definition get_teacher_class_view : handler unit :=
  fun _ w =>
    match session w !! "user_id" with
    | None => (Raised, w)
    | Some uid =>
        let conn := get_db_connection (store w) in
        match fetchone (select_teacher_class uid conn) with
        | None => (Returned class_not_found, w)
        | Some class_info =>
            let students :=
              student_json <$> select_class_students class_info.1 conn in
            (Returned
               (jsonify (JObj [("class", JObj [("id", JNum class_info.1);
                                               ("name", JStr class_info.2)]);
                               ("students", JArr students)])),
             w)
        end
    end.

Definition get_teacher_class : handler unit :=
  login_required (Some "teacher") get_teacher_class_view.
End ordered_views.

(** Text compared byte by byte, for running the ordered views. *)
Module Bytewise.
Definition collation : Collation := {|
  name_le := String.le;
  name_le_dec := String.le_dec;
  name_le_total := String.le_total;
  name_le_trans := _ |}.
End Bytewise.

(** The sample deployment while the text-generation service refuses every
    call. *)
Module Outage.
Definition env : Collaborators := {|
  check_password_hash := @check_password_hash Sample.env;
  generate_password_hash := Sample.hash_of;
  generate_content prompt := inr "quota exceeded";
  server_message := @server_message Sample.env;
  str_date := @str_date Sample.env;
  GEMINI_API_KEY := Some "k";
  next_id := Sample.after_largest;
  next_id_fresh := Sample.after_largest_fresh |}.
End Outage.

(** ** Vocabulary of the properties *)

(** A session exists and carries the role [r]. *)
Definition logged_in_as (r : string) (w : world) : Prop :=
  session w !! "user_id" ≠ None ∧ session w !! "role" = Some (PStr r).

(** Every teacher and every student points at a class that exists: the
    foreign keys of the store. *)
Definition foreign_keys_hold (db : database) : Prop :=
  Forall (λ t, Exists (λ k, class_id k = teacher_class_id t) (classes db))
    (teachers db)
  ∧ Forall (λ s, Exists (λ k, class_id k = student_class_id s) (classes db))
      (students db).

Global Instance foreign_keys_hold_dec (db : database) :
  Decision (foreign_keys_hold db).
Proof. unfold foreign_keys_hold. apply _. Defined.

Global Instance referenced_dec (cid : Z) (db : database) :
  Decision (referenced cid db).
Proof. unfold referenced. apply _. Defined.

(** What [ORDER BY date DESC LIMIT 30] leaves out. *)
Definition older_attendance (sid : option Z) (db : database)
  : list attendance_row :=
  drop 30 (merge_sort date_desc (attendance_of sid db)).

Section vocabulary.
Context {env : Collaborators}.
Implicit Types (w : world) (name : string).

(** The ways a login request fails: the role's table yields no row for
    the identifier, the stored hash does not match the password, or the
    account is a teacher that has not been approved (emails being unique
    among teachers). *)
Inductive login_failure (data : login_request) w : Prop :=
  | no_row :
      user_data_for data (get_db_connection (store w)) = None →
      login_failure data w
  | hash_mismatch (uid : Z) (name pwhash : string) :
      user_data_for data (get_db_connection (store w))
      = Some (uid, name, pwhash) →
      check_password_hash pwhash (lr_password data) = Some false →
      login_failure data w
  | unapproved_teacher (t : teacher_row) :
      lr_role data = Some "teacher" →
      t ∈ teachers (store w) →
      lr_username data = Some (teacher_email t) →
      is_approved t = false →
      (∀ t', t' ∈ teachers (store w) →
             teacher_email t' = teacher_email t → t' = t) →
      login_failure data w.

(** The request carries the four fields the view insists on. *)
Definition signup_fields (data : signup_request) (name email password : string)
  (cid : Z)
  : Prop :=
  (su_name data = Some name ∧ name ≠ EmptyString)
  ∧ (su_email data = Some email ∧ email ≠ EmptyString)
  ∧ (su_password data = Some password ∧ password ≠ EmptyString)
  ∧ (su_class_id data = Some cid ∧ cid ≠ 0).

(** The student row exists and carries this name. *)
Definition student_named (sid : option Z) w name : Prop :=
  fetchone (select_student_name sid (get_db_connection (store w))) = Some name.

(** One [date: status] piece of the prompt. *)
Definition render_row (r : attendance_row) : string :=
  str_date (att_date r) +:+ ": " +:+ att_status r.
End vocabulary.

(** The keys of the store: foreign keys hold, teacher emails and ids are
    unique, class ids are unique. *)
Definition store_consistent (db : database) : Prop :=
  foreign_keys_hold db
  ∧ NoDup (teacher_email <$> teachers db)
  ∧ NoDup (teacher_id <$> teachers db)
  ∧ NoDup (class_id <$> classes db).

Global Instance store_consistent_dec (db : database) :
  Decision (store_consistent db).
Proof. unfold store_consistent. apply _. Defined.

(** The columns a teacher row keeps when it is approved. *)
Definition same_but_approval (t t' : teacher_row) : Prop :=
  teacher_id t' = teacher_id t ∧ teacher_name t' = teacher_name t
  ∧ teacher_email t' = teacher_email t
  ∧ teacher_password t' = teacher_password t
  ∧ teacher_class_id t' = teacher_class_id t
  ∧ teacher_phone t' = teacher_phone t.

(** The id column of a row of the pending-teachers listing. *)
Definition pending_id (r : Z * string * string * option string * string) : Z :=
  r.1.1.1.1.

(** The order of two rows of a class listing: by name. *)
Definition listed_by_name `{Collation} (r1 r2 : Z * string) : Prop :=
  name_le r1.2 r2.2.

(** The order of two rows of a roster: by student name. *)
Definition rostered_by_name `{Collation} (r1 r2 : Z * string * string) : Prop :=
  name_le r1.1.2 r2.1.2.

(** * Properties *)

(** ** Bookkeeping *)

Lemma with_store_id (w : world) : with_store w (store w) = w.
Proof. by destruct w. Qed.

Lemma filter_none {A : Type} (P : A → Prop) `{∀ x, Decision (P x)} (l : list A) :
  Forall (λ x, ¬ P x) l → filter P l = [].
Proof.
  induction 1 as [|x l Hx _ IH]; [done|].
  by rewrite filter_cons_False.
Qed.

Lemma filter_unique_key {A B : Type} `{EqDecision B} (f : A → B) (l : list A)
  (x : A) :
  NoDup (f <$> l) → x ∈ l → filter (λ y, f x = f y) l = [x].
Proof.
  induction l as [|y l IH]; intros Hnodup Hin.
  - by apply elem_of_nil in Hin.
  - rewrite fmap_cons in Hnodup. apply NoDup_cons in Hnodup as [Hy Hl].
    destruct (decide (f x = f y)) as [Heq | Hne].
    + assert (x = y) as ->.
      { apply elem_of_cons in Hin as [-> | Hin]; [done|].
        exfalso. apply Hy. rewrite <- Heq. by apply list_elem_of_fmap_2. }
      rewrite filter_cons_True by done. f_equal.
      apply filter_none. apply Forall_forall. intros z Hz Hfz.
      apply Hy. rewrite Hfz. by apply list_elem_of_fmap_2.
    + rewrite filter_cons_False by done. apply IH; [done|].
      apply elem_of_cons in Hin as [-> | Hin]; [done | done].
Qed.

Lemma string_app_assoc (s1 s2 s3 : string) :
  (s1 +:+ s2) +:+ s3 = s1 +:+ (s2 +:+ s3).
Proof.
  induction s1 as [|a s1 IH]; [done|].
  change (String a ((s1 +:+ s2) +:+ s3) = String a (s1 +:+ (s2 +:+ s3))).
  by rewrite IH.
Qed.

Lemma string_app_nil_r (s : string) : s +:+ EmptyString = s.
Proof.
  induction s as [|a s IH]; [done|].
  change (String a (s +:+ EmptyString) = String a s). by rewrite IH.
Qed.

Lemma occurs_app_l (piece s t : string) :
  (∃ before after, t = before +:+ piece +:+ after) →
  ∃ before after, s +:+ t = before +:+ piece +:+ after.
Proof.
  intros (b & a & ->). exists (s +:+ b), a. by rewrite string_app_assoc.
Qed.

Lemma occurs_app_r (piece s t : string) :
  (∃ before after, s = before +:+ piece +:+ after) →
  ∃ before after, s +:+ t = before +:+ piece +:+ after.
Proof.
  intros (b & a & ->). exists b, (a +:+ t). by rewrite !string_app_assoc.
Qed.

Lemma concat_occurs (sep piece : string) (parts : list string) :
  piece ∈ parts →
  ∃ before after, String.concat sep parts = before +:+ piece +:+ after.
Proof.
  induction parts as [|p parts IH]; intros Hin.
  - by apply elem_of_nil in Hin.
  - destruct parts as [|q parts].
    + apply list_elem_of_singleton in Hin as ->.
      exists EmptyString, EmptyString. simpl. by rewrite string_app_nil_r.
    + change (String.concat sep (p :: q :: parts))
        with (p +:+ sep +:+ String.concat sep (q :: parts)).
      apply elem_of_cons in Hin as [-> | Hin].
      * by exists EmptyString, (sep +:+ String.concat sep (q :: parts)).
      * apply occurs_app_l, occurs_app_l. by apply IH.
Qed.

Lemma join_concat (sep : string) (parts : list string) :
  join sep parts = String.concat sep parts.
Proof.
  induction parts as [|p parts IH]; [done|].
  destruct parts as [|q parts]; [done|].
  change (p +:+ sep +:+ join sep (q :: parts)
          = p +:+ sep +:+ String.concat sep (q :: parts)).
  by rewrite IH.
Qed.

(** ** The gate (login_required) *)

Section gate.
Context {A : Type}.
Implicit Types (f : handler A) (args : A) (w : world).

Lemma login_required_pass (r : string) f args w :
  logged_in_as r w → login_required (Some r) f args w = f args w.
Proof.
  intros [Hid Hrole]. unfold login_required.
  rewrite decide_False by done. rewrite Hrole. simpl.
  rewrite bool_decide_eq_false_2 by (intros Hne; by apply Hne).
  by rewrite andb_false_r.
Qed.

(** C6. On an endpoint wrapped by [login_required] with a required role
    [r]: with no session the response is 401, and with a session whose role
    is not [r] the response is 403.  In both cases the world is left as it
    was found and any other view [g] in place of [f] gives the same result:
    the body of the view has not run. *)
Theorem login_required_rejects (r : string) f g args w :
  r ≠ EmptyString →
  (session w !! "user_id" = None →
     login_required (Some r) f args w
     = (Returned (Response 401 (message "Authentication required")), w)
     ∧ login_required (Some r) f args w = login_required (Some r) g args w)
  ∧ (session w !! "user_id" ≠ None →
     session w !! "role" ≠ Some (PStr r) →
     login_required (Some r) f args w
     = (Returned (Response 403 (message "Forbidden")), w)
     ∧ login_required (Some r) f args w = login_required (Some r) g args w).
Proof.
  intros Hr. unfold login_required. split.
  - intros Hnone. by rewrite !decide_True.
  - intros Hsome Hrole. rewrite !decide_False by done.
    assert (truthy_str (Some r) = true) as ->.
    { simpl. apply negb_true_iff. by apply String.eqb_neq. }
    rewrite bool_decide_eq_true_2; [done|].
    simpl. destruct (session w !! "role") as [v|] eqn:Hv; simpl.
    + intros ->. by apply Hrole.
    + discriminate.
Qed.
End gate.

Lemma login_required_rejects_witness :
  login_required (Some "admin") approve_teacher_view (Some 2)
    Sample.anonymous
  = (Returned (Response 401 (message "Authentication required")), Sample.anonymous)
  ∧ login_required (Some "admin") approve_teacher_view (Some 2)
      Sample.as_teacher
    = (Returned (Response 403 (message "Forbidden")), Sample.as_teacher).
Proof.
  assert (Hne : "admin" ≠ EmptyString) by discriminate.
  pose proof (login_required_rejects "admin" approve_teacher_view
                approve_teacher_view (Some 2) Sample.anonymous Hne) as [Hno _].
  pose proof (login_required_rejects "admin" approve_teacher_view
                approve_teacher_view (Some 2) Sample.as_teacher Hne) as [_ Hother].
  split.
  - apply Hno. reflexivity.
  - apply Hother.
    + vm_compute. discriminate.
    + vm_compute. intros Heq. discriminate Heq.
Defined.

(** ** Login *)

Section login_properties.
Context {env : Collaborators}.
Implicit Types (data : login_request) (w : world).

Lemma unapproved_teacher_has_no_row data w (t : teacher_row) :
  lr_role data = Some "teacher" →
  lr_username data = Some (teacher_email t) →
  is_approved t = false →
  (∀ t', t' ∈ teachers (store w) →
         teacher_email t' = teacher_email t → t' = t) →
  user_data_for data (get_db_connection (store w)) = None.
Proof.
  intros Hrole Huser Hpending Huniq. unfold user_data_for.
  rewrite Hrole. rewrite decide_False by discriminate.
  rewrite decide_True by done.
  unfold select_approved_teacher, fetchone. simpl.
  rewrite filter_none; [done|].
  apply Forall_forall. intros t' Hin [Hmail Happroved].
  unfold sql_eq in Hmail. rewrite Huser in Hmail.
  assert (t' = t) as -> by (apply Huniq; [done | congruence]).
  congruence.
Qed.

Lemma login_failure_response data w :
  login_failure data w → login data w = (Returned invalid_credentials, w).
Proof.
  intros [Hnone | uid name pwhash Hrow Hcheck | t Hrole _ Huser Hpending Huniq];
    unfold login.
  - by rewrite Hnone.
  - by rewrite Hrow, Hcheck.
  - by rewrite (unapproved_teacher_has_no_row data w t).
Qed.

(** Whatever [login] returns is the success response or the one failure
    response. *)
Lemma login_returns data w (r : response) :
  (login data w).1 = Returned r →
  status r = 200 ∨ (r = invalid_credentials ∧ (login data w).2 = w).
Proof.
  unfold login.
  destruct (user_data_for _ _) as [[[uid name] pwhash]|]; simpl.
  - destruct (check_password_hash _ _) as [[]|]; simpl; intros Hr;
      simplify_eq; auto.
  - intros Hr. simplify_eq. auto.
Qed.

(** Any two login requests that fail because no row matches, because the
    library reports a hash mismatch or because the teacher is not approved,
    whatever the store holds, get the same response: status 401 with the
    one fixed message; the session is left as it was. *)
Theorem login_failure_uniform data1 w1 data2 w2 :
  login_failure data1 w1 → login_failure data2 w2 →
  login data1 w1
  = (Returned (Response 401
                 (message "Invalid credentials or account not approved")), w1)
  ∧ (login data1 w1).1 = (login data2 w2).1.
Proof.
  intros H1 H2.
  rewrite (login_failure_response _ _ H1), (login_failure_response _ _ H2).
  done.
Qed.
(** C1, where the code departs from it.  A request that carries no
    password, sent to a password library that raises on a missing password:
    for an identifier that has a credential row the exception escapes
    [login] (the client gets a 500), for an identifier without a row the
    answer is the 401.  The two failures can be told apart, and with them
    whether the account exists. *)
Theorem login_without_password_reveals_account data w :
  lr_password data = None →
  (∀ pwhash, check_password_hash pwhash None = None) →
  (∀ (uid : Z) (name pwhash : string),
      user_data_for data (get_db_connection (store w))
      = Some (uid, name, pwhash) →
      login data w = (Raised, w))
  ∧ (user_data_for data (get_db_connection (store w)) = None →
     login data w
     = (Returned (Response 401
                    (message "Invalid credentials or account not approved")),
        w)).
Proof.
  intros Hpassword Hraises. unfold login. split.
  - intros uid name pwhash Hrow. by rewrite Hrow, Hpassword, Hraises.
  - intros Hnone. by rewrite Hnone.
Qed.
End login_properties.

Lemma login_without_password_reveals_account_witness :
  login (env:=Sample.env) (LoginRequest (Some "root") None (Some "admin"))
    Sample.anonymous
  = (Raised, Sample.anonymous)
  ∧ login (env:=Sample.env) (LoginRequest (Some "nobody") None (Some "admin"))
      Sample.anonymous
    = (Returned (Response 401
                   (message "Invalid credentials or account not approved")),
       Sample.anonymous).
Proof.
  assert (Hraises : ∀ pwhash,
             check_password_hash (Collaborators:=Sample.env) pwhash None = None)
    by reflexivity.
  pose proof (login_without_password_reveals_account (env:=Sample.env)
                (LoginRequest (Some "root") None (Some "admin")) Sample.anonymous
                eq_refl Hraises) as [Hknown _].
  pose proof (login_without_password_reveals_account (env:=Sample.env)
                (LoginRequest (Some "nobody") None (Some "admin"))
                Sample.anonymous eq_refl Hraises) as [_ Hunknown].
  split.
  - apply (Hknown 1 "root" (Sample.hash_of "s3cret")). reflexivity.
  - apply Hunknown. reflexivity.
Defined.

(** ** Approving a teacher *)

Lemma set_teachers_id (db : database) : set_teachers db (teachers db) = db.
Proof. by destruct db. Qed.

Lemma approve_row_idemp (tid : option Z) (t : teacher_row) :
  approve_row tid (approve_row tid t) = approve_row tid t.
Proof.
  unfold approve_row. destruct (decide (sql_eq (teacher_id t) tid)) as [Hid|Hid].
  - simpl. by rewrite decide_True.
  - by rewrite decide_False.
Qed.

Lemma approve_row_id (tid : option Z) (t : teacher_row) :
  teacher_id (approve_row tid t) = teacher_id t.
Proof. unfold approve_row. by case_decide. Qed.

Lemma approve_row_approved (tid : option Z) (t : teacher_row) :
  sql_eq (teacher_id t) tid → is_approved (approve_row tid t) = true.
Proof. intros Hid. unfold approve_row. by rewrite decide_True. Qed.

Lemma approve_row_other (tid : option Z) (t : teacher_row) :
  ¬ sql_eq (teacher_id t) tid → approve_row tid t = t.
Proof. intros Hid. unfold approve_row. by rewrite decide_False. Qed.

Lemma approve_teacher_view_eq (tid : option Z) (w : world) :
  approve_teacher_view tid w
  = (Returned teacher_approved,
     with_store w (set_teachers (store w) (approve_row tid <$> teachers (store w)))).
Proof. done. Qed.

(** C7. For an admin, approving the same id twice answers 200 with the
    success message both times; after the first call (and so after the
    second) every teacher row with that id has [is_approved = true] and the
    rows are the ones that were there; the second call leaves the world
    exactly as the first one left it. *)
Theorem approve_teacher_idempotent (tid : option Z) (w : world) :
  logged_in_as "admin" w →
  let once := approve_teacher tid w in
  let twice := approve_teacher tid once.2 in
  once.1 = Returned (Response 200 (message "Teacher approved successfully"))
  ∧ twice.1 = Returned (Response 200 (message "Teacher approved successfully"))
  ∧ twice.2 = once.2
  ∧ teacher_id <$> teachers (store once.2) = teacher_id <$> teachers (store w)
  ∧ ∀ t, t ∈ teachers (store once.2) →
         sql_eq (teacher_id t) tid → is_approved t = true.
Proof.
  intros Hadmin. simpl. unfold approve_teacher.
  rewrite (login_required_pass "admin" _ tid w Hadmin).
  rewrite approve_teacher_view_eq. simpl.
  rewrite login_required_pass by exact Hadmin.
  rewrite approve_teacher_view_eq. simpl.
  repeat split.
  - unfold with_store, set_teachers. simpl. f_equal. f_equal.
    rewrite <- list_fmap_compose. apply list_fmap_ext.
    intros i t _. apply approve_row_idemp.
  - rewrite <- list_fmap_compose. apply list_fmap_ext.
    intros i t _. apply approve_row_id.
  - intros t (t0 & -> & Hin)%list_elem_of_fmap Hid.
    rewrite approve_row_id in Hid. by apply approve_row_approved.
Qed.

Lemma approve_teacher_idempotent_witness :
  let once := approve_teacher (Some 2) Sample.as_admin in
  (approve_teacher (Some 2) once.2).2 = once.2
  ∧ is_approved <$> teachers (store once.2) = [true; true].
Proof.
  assert (Hadmin : logged_in_as "admin" Sample.as_admin).
  { split; [vm_compute; discriminate | reflexivity]. }
  destruct (approve_teacher_idempotent (Some 2) Sample.as_admin Hadmin)
    as (_ & _ & Hsame & _ & _).
  split; [exact Hsame | reflexivity].
Defined.

(** C10. For an admin and any [teacher_id] the response is 200 with the
    success message, also when no teacher row has that id; in that case
    nothing in the world changes. *)
Theorem approve_teacher_unknown_id (tid : option Z) (w : world) :
  logged_in_as "admin" w →
  (approve_teacher tid w).1
  = Returned (Response 200 (message "Teacher approved successfully"))
  ∧ (Forall (λ t, ¬ sql_eq (teacher_id t) tid) (teachers (store w)) →
     approve_teacher tid w
     = (Returned (Response 200 (message "Teacher approved successfully")), w)).
Proof.
  intros Hadmin. unfold approve_teacher.
  rewrite (login_required_pass "admin" _ tid w Hadmin).
  rewrite approve_teacher_view_eq. split; [done|].
  intros Hnone. f_equal.
  replace (approve_row tid <$> teachers (store w)) with (teachers (store w)).
  - by rewrite set_teachers_id, with_store_id.
  - induction Hnone as [|t ts Ht _ IH]; [done|].
    rewrite fmap_cons, approve_row_other by done. by rewrite <- IH.
Qed.

Lemma approve_teacher_unknown_id_witness :
  approve_teacher (Some 99) Sample.as_admin
  = (Returned (Response 200 (message "Teacher approved successfully")),
     Sample.as_admin).
Proof.
  assert (Hadmin : logged_in_as "admin" Sample.as_admin).
  { split; [vm_compute; discriminate | reflexivity]. }
  apply (approve_teacher_unknown_id (Some 99) Sample.as_admin Hadmin).
  repeat constructor; vm_compute; discriminate.
Defined.

Lemma login_failure_uniform_witness :
  let wrong_password := LoginRequest (Some "root") (Some "guess") (Some "admin") in
  let pending_teacher :=
    LoginRequest (Some "bob@x.com") (Some "pb") (Some "teacher") in
  (login (env:=Sample.env) wrong_password Sample.anonymous).1
  = (login (env:=Sample.env) pending_teacher Sample.as_admin).1.
Proof.
  intros wrong_password pending_teacher.
  apply (login_failure_uniform (env:=Sample.env)
           wrong_password Sample.anonymous pending_teacher Sample.as_admin).
  - apply (hash_mismatch _ _ 1 "root" (Sample.hash_of "s3cret")); reflexivity.
  - apply (unapproved_teacher _ _
             (TeacherRow 2 "Bob" "bob@x.com" (Sample.hash_of "pb") 1 (Some "555") false));
      try reflexivity.
    + simpl. apply list_elem_of_further, list_elem_of_here.
    + simpl. intros t' Hin Hmail.
      apply elem_of_cons in Hin as [-> | Hin]; [discriminate Hmail|].
      apply elem_of_cons in Hin as [-> | Hin]; [reflexivity|].
      by apply elem_of_nil in Hin.
Defined.

(** ** Teacher signup *)

Section signup_properties.
Context {env : Collaborators}.
Implicit Types (data : signup_request) (w : world).

Lemma truthy_str_Some (s : string) :
  s ≠ EmptyString → truthy_str (Some s) = true.
Proof. intros Hs. simpl. apply negb_true_iff. by apply String.eqb_neq. Qed.

Lemma truthy_int_Some (n : Z) : n ≠ 0 → truthy_int (Some n) = true.
Proof. intros Hn. simpl. apply negb_true_iff. by apply Z.eqb_neq. Qed.

Lemma signup_teacher_falsy data w :
  truthy_str (su_name data) = false ∨ truthy_str (su_email data) = false
  ∨ truthy_str (su_password data) = false
  ∨ truthy_int (su_class_id data) = false →
  signup_teacher data w = (Returned missing_fields, w).
Proof.
  intros Hfalsy. unfold signup_teacher.
  assert (forallb id [truthy_str (su_name data); truthy_str (su_email data);
                      truthy_str (su_password data);
                      truthy_int (su_class_id data)] = false) as ->; [|done].
  simpl. destruct Hfalsy as [-> | [-> | [-> | ->]]];
    by rewrite ?andb_false_r, ?andb_false_l.
Qed.

Lemma signup_teacher_complete data w name email password cid :
  signup_fields data name email password cid →
  signup_teacher data w
  = match insert_teacher name email (generate_password_hash password) cid
            (su_phone data) (get_db_connection (store w)) with
    | inr conn => (Returned signup_successful, with_store w (close (commit conn)))
    | inl (IntegrityError _) => (Returned email_exists, w)
    | inl (OtherError _) => (Raised, w)
    end.
Proof.
  intros ((Hn & ?) & (He & ?) & (Hp & ?) & (Hc & ?)). unfold signup_teacher.
  rewrite Hn, He, Hp, Hc.
  rewrite !truthy_str_Some, truthy_int_Some by done. simpl.
  rewrite with_store_id. done.
Qed.

Lemma insert_teacher_phone name email password cid (c : connection)
  (phone phone' : option string) :
  match insert_teacher name email password cid phone c,
        insert_teacher name email password cid phone' c with
  | inl e, inl e' => e = e'
  | inr _, inr _ => True
  | _, _ => False
  end.
Proof. unfold insert_teacher. by repeat case_decide. Qed.

(** C8, as the code has it. When any of [name], [email], [password],
    [class_id] is missing from the body, the response is 400 with the
    missing-fields message and the world, hence the teachers table, is
    unchanged.  [phone] is not among the required fields: the response to
    a request never depends on the phone it carries. *)
Theorem signup_teacher_missing_required data w :
  (su_name data = None ∨ su_email data = None ∨ su_password data = None
   ∨ su_class_id data = None →
   signup_teacher data w
   = (Returned (Response 400 (message "Missing required fields")), w))
  ∧ (∀ phone',
       (signup_teacher
          (SignupRequest (su_name data) (su_email data) (su_password data)
             (su_class_id data) phone') w).1
       = (signup_teacher data w).1).
Proof.
  split.
  - intros Hmissing. apply signup_teacher_falsy.
    destruct Hmissing as [-> | [-> | [-> | ->]]]; auto.
  - intros phone'. unfold signup_teacher. simpl.
    destruct (negb _); [done|].
    destruct (su_name data) as [name|]; [|done].
    destruct (su_email data) as [email|]; [|done].
    destruct (su_password data) as [password|]; [|done].
    destruct (su_class_id data) as [cid|]; [|done].
    pose proof (insert_teacher_phone name email
                  (generate_password_hash password) cid
                  (get_db_connection (store w)) phone' (su_phone data)) as Hp.
    destruct (insert_teacher _ _ _ _ phone' _) as [e|c],
             (insert_teacher _ _ _ _ (su_phone data) _) as [e'|c'];
      try done.
    by subst e'.
Qed.

(** C9. With the four required fields present, any integrity error raised
    by the insert gets the 409 "Email address already exists" response and
    leaves the store as it was; a duplicate email and a [class_id] naming
    no class both raise one, so both get that same response. *)
Theorem signup_teacher_integrity_error data w name email password cid :
  signup_fields data name email password cid →
  (∀ text,
      insert_teacher name email (generate_password_hash password) cid
        (su_phone data) (get_db_connection (store w))
      = inl (IntegrityError text) →
      signup_teacher data w
      = (Returned (Response 409 (message "Email address already exists")), w))
  ∧ (Exists (λ t, teacher_email t = email) (teachers (store w)) →
     signup_teacher data w
     = (Returned (Response 409 (message "Email address already exists")), w))
  ∧ (Forall (λ k, class_id k ≠ cid) (classes (store w)) →
     signup_teacher data w
     = (Returned (Response 409 (message "Email address already exists")), w)).
Proof.
  intros Hfields. rewrite (signup_teacher_complete _ _ _ _ _ _ Hfields).
  split; [|split].
  - intros text ->. done.
  - intros Hdup. unfold insert_teacher. simpl. by rewrite decide_True.
  - intros Hnoclass. unfold insert_teacher. simpl.
    case_decide; [done|]. by rewrite decide_True.
Qed.
End signup_properties.

Lemma signup_teacher_missing_required_witness :
  signup_teacher (env:=Sample.env)
    (SignupRequest (Some "A") None (Some "p") (Some 1) (Some "555"))
    Sample.anonymous
  = (Returned (Response 400 (message "Missing required fields")), Sample.anonymous).
Proof.
  apply (signup_teacher_missing_required (env:=Sample.env)). simpl. auto.
Defined.

(** C8 as stated fails for [phone]: a body that lacks only [phone] is
    accepted with 201 and its teacher row is inserted. *)
Lemma signup_teacher_without_phone :
  let data := SignupRequest (Some "A") (Some "a@x.com") (Some "p") (Some 1) None in
  let result := signup_teacher (env:=Sample.env) data Sample.anonymous in
  su_phone data = None
  ∧ result.1
    = Returned (Response 201
                  (message "Signup successful! Please wait for admin approval."))
  ∧ teachers (store result.2)
    = (teachers Sample.db
       ++ [TeacherRow 3 "A" "a@x.com" (Sample.hash_of "p") 1 None false])%list.
Proof. vm_compute. done. Qed.

Lemma signup_teacher_integrity_error_witness :
  signup_teacher (env:=Sample.env)
    (SignupRequest (Some "Eve") (Some "ann@x.com") (Some "p") (Some 1) None)
    Sample.anonymous
  = signup_teacher (env:=Sample.env)
      (SignupRequest (Some "Eve") (Some "eve@x.com") (Some "p") (Some 9) None)
      Sample.anonymous.
Proof.
  assert (Hdup : signup_fields
            (SignupRequest (Some "Eve") (Some "ann@x.com") (Some "p") (Some 1) None)
            "Eve" "ann@x.com" "p" 1) by (repeat split; discriminate).
  assert (Hfk : signup_fields
            (SignupRequest (Some "Eve") (Some "eve@x.com") (Some "p") (Some 9) None)
            "Eve" "eve@x.com" "p" 9) by (repeat split; discriminate).
  destruct (signup_teacher_integrity_error (env:=Sample.env) _ Sample.anonymous
              _ _ _ _ Hdup) as (_ & -> & _).
  - destruct (signup_teacher_integrity_error (env:=Sample.env) _ Sample.anonymous
                _ _ _ _ Hfk) as (_ & _ & ->).
    + reflexivity.
    + repeat constructor; vm_compute; discriminate.
  - apply Exists_cons_hd. reflexivity.
Defined.

(** ** Deleting a class *)

Section delete_properties.
Context {env : Collaborators}.
Implicit Types (cid : Z) (w : world) (db : database).


Lemma delete_class_view_rejected cid w (e : psycopg2_Error) :
  delete_class_row cid (get_db_connection (store w)) = inl e →
  delete_class_view cid w
  = (Returned (Response 400 (message (cannot_delete_prefix +:+ str_error e))), w).
Proof.
  intros He. unfold delete_class_view. rewrite He. simpl.
  by rewrite with_store_id.
Qed.


(** C2, as the code has it. A signup whose insert raises an integrity
    error answers with the fixed 409 message, which carries nothing of the
    exception; any other store error escapes [signup_teacher] without a
    response of its own.  A delete that the store rejects answers 400 with
    the fixed sentence followed by the text of the store's exception. *)
Theorem store_rejection_responses :
  (∀ (data : signup_request) w name email password c_id,
      signup_fields data name email password c_id →
      ∀ e, insert_teacher name email (generate_password_hash password) c_id
             (su_phone data) (get_db_connection (store w)) = inl e →
           signup_teacher data w
           = match e with
             | IntegrityError _ =>
                 (Returned (Response 409 (message "Email address already exists")), w)
             | OtherError _ => (Raised, w)
             end)
  ∧ (∀ cid w e,
        delete_class_row cid (get_db_connection (store w)) = inl e →
        delete_class_view cid w
        = (Returned
             (Response 400
                (message ("Cannot delete class, it may be in use. DB Error: "
                          +:+ str_error e))), w)).
Proof.
  split.
  - intros data w name email password c_id Hfields e He.
    rewrite (signup_teacher_complete _ _ _ _ _ _ Hfields), He.
    by destruct e.
  - intros cid w e He. by apply delete_class_view_rejected.
Qed.
End delete_properties.


(** C2 as stated fails on [delete_class]: the text of the store's exception
    is part of the 400 message. *)
Lemma delete_class_exposes_store_error :
  delete_class_row (env:=Sample.env) 1 (get_db_connection Sample.db)
  = inl (IntegrityError "violates foreign key constraint")
  ∧ (delete_class (env:=Sample.env) 1 Sample.as_admin).1
    = Returned
        (Response 400
           (message "Cannot delete class, it may be in use. DB Error: violates foreign key constraint")).
Proof. by vm_compute. Qed.

Lemma store_rejection_responses_witness :
  signup_teacher (env:=Sample.env)
    (SignupRequest (Some "Eve") (Some "ann@x.com") (Some "p") (Some 1) None)
    Sample.anonymous
  = (Returned (Response 409 (message "Email address already exists")),
     Sample.anonymous)
  ∧ delete_class_view (env:=Sample.env) 1 Sample.as_admin
    = (Returned
         (Response 400
            (message "Cannot delete class, it may be in use. DB Error: violates foreign key constraint")),
       Sample.as_admin).
Proof.
  pose proof (store_rejection_responses (env:=Sample.env)) as [Hsignup Hdelete].
  split.
  - assert (Hfields : signup_fields
              (SignupRequest (Some "Eve") (Some "ann@x.com") (Some "p") (Some 1) None)
              "Eve" "ann@x.com" "p" 1) by (repeat split; discriminate).
    apply (Hsignup _ Sample.anonymous "Eve" "ann@x.com" "p" 1 Hfields
             (IntegrityError "duplicate key value violates unique constraint")).
    reflexivity.
  - apply (Hdelete 1 Sample.as_admin
             (IntegrityError "violates foreign key constraint")).
    reflexivity.
Defined.

(** ** Report generation *)

Global Instance date_desc_total : Total date_desc.
Proof. intros r1 r2. unfold date_desc. lia. Qed.

Global Instance date_desc_trans : Transitive date_desc.
Proof. intros r1 r2 r3. unfold date_desc. lia. Qed.

Lemma recent_older_split (sid : option Z) (db : database) :
  (recent_attendance sid db ++ older_attendance sid db)%list
  ≡ₚ attendance_of sid db.
Proof.
  unfold recent_attendance, older_attendance.
  rewrite take_drop. apply merge_sort_Permutation.
Qed.

Lemma recent_attendance_length (sid : option Z) (db : database) :
  length (recent_attendance sid db)
  = (30 `min` length (attendance_of sid db))%nat.
Proof.
  unfold recent_attendance. rewrite length_take.
  by rewrite (Permutation_length (merge_sort_Permutation _ _)).
Qed.

Lemma recent_older_sorted (sid : option Z) (db : database) :
  StronglySorted date_desc
    (recent_attendance sid db ++ older_attendance sid db).
Proof.
  unfold recent_attendance, older_attendance. rewrite take_drop.
  apply StronglySorted_merge_sort; apply _.
Qed.

Lemma recent_attendance_none (sid : option Z) (db : database) :
  Forall (λ r, ¬ sql_eq (att_student_id r) sid) (attendance db) →
  recent_attendance sid db = [].
Proof.
  intros Hnone. unfold recent_attendance, attendance_of.
  by rewrite filter_none.
Qed.

Section report_properties.
Context {env : Collaborators}.
Implicit Types (sid : option Z) (w : world) (name : string).

Lemma render_records sid w :
  render_record <$> select_attendance sid (get_db_connection (store w))
  = render_row <$> recent_attendance sid (store w).
Proof.
  unfold select_attendance. simpl. rewrite <- list_fmap_compose.
  by apply list_fmap_ext.
Qed.

Lemma report_view_no_records sid w name :
  truthy_str GEMINI_API_KEY = true → student_named sid w name →
  recent_attendance sid (store w) = [] →
  generate_student_report_view sid w
  = (Returned (report (name +:+ " has no recent attendance records.")), w).
Proof.
  intros Hkey Hname Hnone. unfold generate_student_report_view.
  rewrite Hkey. simpl. rewrite Hname.
  unfold select_attendance. simpl. by rewrite Hnone.
Qed.

Lemma report_view_with_records sid w name :
  truthy_str GEMINI_API_KEY = true → student_named sid w name →
  recent_attendance sid (store w) ≠ [] →
  let prompt :=
    render_prompt name
      (join ", " (render_row <$> recent_attendance sid (store w))) in
  generate_student_report_view sid w
  = (match generate_content prompt with
     | inl report_text => Returned (report report_text)
     | inr e => Returned (Response 500 (message (ai_error_prefix +:+ e)))
     end, with_call w prompt).
Proof.
  intros Hkey Hname Hsome prompt. unfold generate_student_report_view.
  rewrite Hkey. simpl. rewrite Hname.
  pose proof (render_records sid w) as Hrender. fold prompt.
  destruct (select_attendance sid (get_db_connection (store w)))
    as [|record records] eqn:Hrecords.
  - unfold select_attendance in Hrecords. simpl in Hrecords.
    by apply fmap_nil_inv in Hrecords.
  - rewrite Hrender. fold prompt. by destruct (generate_content prompt).
Qed.

Lemma report_view_without_key sid w :
  truthy_str GEMINI_API_KEY = false →
  generate_student_report_view sid w = (Returned key_not_configured, w).
Proof. intros Hkey. unfold generate_student_report_view. by rewrite Hkey. Qed.

(** C5. For a teacher asking about a student that exists and has no
    attendance row: the service is not called (the log of prompts is what
    it was), and, the service credential being configured, the answer is
    200 with the sentence "<name> has no recent attendance records." and
    an unchanged world. *)
Theorem generate_report_no_records sid w name :
  logged_in_as "teacher" w →
  student_named sid w name →
  Forall (λ r, ¬ sql_eq (att_student_id r) sid) (attendance (store w)) →
  gemini_calls (generate_student_report sid w).2 = gemini_calls w
  ∧ (truthy_str GEMINI_API_KEY = true →
     generate_student_report sid w
     = (Returned
          (Response 200
             (JObj [("report",
                     JStr (name +:+ " has no recent attendance records."))])),
        w)).
Proof.
  intros Hteacher Hname Hnone%(recent_attendance_none sid).
  unfold generate_student_report.
  rewrite (login_required_pass "teacher" _ sid w Hteacher).
  destruct (truthy_str GEMINI_API_KEY) eqn:Hkey.
  - by rewrite (report_view_no_records sid w name).
  - by rewrite report_view_without_key.
Qed.

Lemma student_row_named sid w (s : student_row) :
  s ∈ students (store w) → sid = Some (student_id s) →
  NoDup (student_id <$> students (store w)) →
  student_named sid w (student_name s).
Proof.
  intros Hin -> Hkeys. unfold student_named, fetchone, select_student_name.
  simpl.
  rewrite (list_filter_iff _ (λ r, student_id s = student_id r)).
  - by rewrite (filter_unique_key student_id _ s).
  - intros r. unfold sql_eq. split; congruence.
Qed.

Lemma attendance_of_student (id : Z) (db : database) :
  attendance_of (Some id) db
  = filter (λ r, att_student_id r = id) (attendance db).
Proof.
  unfold attendance_of. apply list_filter_iff.
  intros r. unfold sql_eq. split; congruence.
Qed.

(** C4. For a teacher asking about a student that exists (student ids
    being unique) and has attendance rows, with the service credential
    configured.  The rows used are the first 30 of the rows of the
    attendance table that carry the student's id, taken newest first: with
    the older ones left out they are, row for row, those rows of the table,
    and no row left out is more recent than a row used.  The prompt is the
    fixed template naming the student around the [date: status] pieces of
    these rows, one per row, in that order, separated by ", "; every piece
    occurs in the prompt.  That prompt is the one call made to the service,
    and when the service answers with a text, the response is 200 carrying
    exactly that text. *)
Theorem generate_report_prompt sid w (s : student_row) :
  logged_in_as "teacher" w →
  truthy_str GEMINI_API_KEY = true →
  s ∈ students (store w) → sid = Some (student_id s) →
  NoDup (student_id <$> students (store w)) →
  Exists (λ r, att_student_id r = student_id s) (attendance (store w)) →
  ∃ rows older : list attendance_row,
    (rows ++ older)%list
    ≡ₚ filter (λ r, att_student_id r = student_id s) (attendance (store w))
    ∧ length rows
      = (30 `min` length (filter (λ r, att_student_id r = student_id s)
                            (attendance (store w))))%nat
    ∧ StronglySorted (λ r1 r2, att_date r2 ≤ att_date r1) rows
    ∧ (∀ r o, r ∈ rows → o ∈ older → att_date o ≤ att_date r)
    ∧ let newline := String (Ascii.ascii_of_nat 10) EmptyString in
      let pieces :=
        (λ r, str_date (att_date r) +:+ ": " +:+ att_status r) <$> rows in
      let prompt :=
        newline
        +:+ "    As a helpful teacher's assistant, analyze the following recent attendance data for a student named "
        +:+ student_name s
        +:+ " and write a brief, constructive performance summary (2-4 sentences). "
        +:+ newline
        +:+ "    Focus on patterns, not just listing dates. Be positive if the attendance is good, or gently concerned if there are issues like frequent absences or half-days."
        +:+ newline +:+ newline
        +:+ "    Data: " +:+ String.concat ", " pieces
        +:+ newline +:+ "    " in
      (∀ piece, piece ∈ pieces →
         ∃ before after, prompt = before +:+ piece +:+ after)
      ∧ gemini_calls (generate_student_report sid w).2
        = (gemini_calls w ++ [prompt])%list
      ∧ (∀ text, generate_content prompt = inl text →
           generate_student_report sid w
           = (Returned (Response 200 (JObj [("report", JStr text)])),
              with_call w prompt)).
Proof.
  intros Hteacher Hkey Hin Hsid Hkeys Hsome.
  pose proof (student_row_named sid w s Hin Hsid Hkeys) as Hname.
  pose proof (recent_older_sorted sid (store w)) as Hsorted.
  pose proof (recent_attendance_length sid (store w)) as Hlen.
  pose proof (recent_older_split sid (store w)) as Hsplit.
  rewrite Hsid in Hlen, Hsplit. rewrite attendance_of_student in Hlen, Hsplit.
  rewrite <- Hsid in Hlen, Hsplit.
  exists (recent_attendance sid (store w)), (older_attendance sid (store w)).
  split; [exact Hsplit|]. split; [exact Hlen|].
  split; [by apply StronglySorted_app_1_l in Hsorted|].
  split; [intros r o Hr Ho;
          apply (StronglySorted_app_1_elem_of _ _ _ _ _ Hsorted Hr Ho)|].
  intros newline pieces prompt.
  assert (recent_attendance sid (store w) ≠ []) as Hrows.
  { intros Hnil. rewrite Hnil in Hlen. simpl in Hlen.
    apply Exists_exists in Hsome as (r & Hr & Hid).
    assert (r ∈ filter (λ r, att_student_id r = student_id s)
                  (attendance (store w))) as Hfiltered
      by (by apply list_elem_of_filter).
    destruct (filter _ (attendance (store w))); [by apply elem_of_nil in Hfiltered|].
    simpl in Hlen. lia. }
  assert (render_prompt (student_name s)
            (join ", " (render_row <$> recent_attendance sid (store w)))
          = prompt) as Hprompt.
  { unfold render_prompt, prompt_head, prompt_middle, prompt_tail, nl.
    rewrite join_concat. by rewrite !string_app_assoc. }
  assert (generate_student_report sid w
          = (match generate_content prompt with
             | inl report_text => Returned (report report_text)
             | inr e => Returned (Response 500 (message (ai_error_prefix +:+ e)))
             end, with_call w prompt)) as Hrun.
  { unfold generate_student_report.
    rewrite (login_required_pass "teacher" _ sid w Hteacher).
    rewrite (report_view_with_records sid w (student_name s) Hkey Hname Hrows).
    by rewrite Hprompt. }
  split; [|split].
  - intros piece Hpiece. subst prompt.
    do 9 apply occurs_app_l. apply occurs_app_r. by apply concat_occurs.
  - by rewrite Hrun.
  - intros text Htext. by rewrite Hrun, Htext.
Qed.
End report_properties.

Lemma generate_report_no_records_witness :
  generate_student_report (env:=Sample.env) (Some 2) Sample.as_teacher
  = (Returned
       (Response 200 (JObj [("report", JStr "Di has no recent attendance records.")])),
     Sample.as_teacher).
Proof.
  assert (Hteacher : logged_in_as "teacher" Sample.as_teacher).
  { split; [vm_compute; discriminate | reflexivity]. }
  apply (generate_report_no_records (env:=Sample.env) (Some 2) Sample.as_teacher
           "Di" Hteacher).
  - reflexivity.
  - repeat constructor; vm_compute; discriminate.
  - reflexivity.
Defined.

Lemma generate_report_prompt_witness :
  ∃ rows older : list attendance_row,
    (rows ++ older)%list
    ≡ₚ filter (λ r, att_student_id r = 1) (attendance Sample.db)
    ∧ length rows = 3%nat
    ∧ ∀ piece,
        piece ∈ (λ r, "day " +:+ pretty (att_date r) +:+ ": " +:+ att_status r)
                  <$> rows →
        ∃ prompt before after,
          gemini_calls
            (generate_student_report (env:=Sample.env) (Some 1)
               Sample.as_teacher).2
          = [prompt]
          ∧ prompt = before +:+ piece +:+ after.
Proof.
  assert (Hteacher : logged_in_as "teacher" Sample.as_teacher).
  { split; [vm_compute; discriminate | reflexivity]. }
  destruct (generate_report_prompt (env:=Sample.env) (Some 1) Sample.as_teacher
              (StudentRow 1 "Cy" "cy" (Sample.hash_of "pc") 1) Hteacher)
    as (rows & older & Hsplit & Hlen & _ & _ & Hpieces & Hcalls & _).
  - reflexivity.
  - apply list_elem_of_here.
  - reflexivity.
  - apply (bool_decide_unpack _). by vm_compute.
  - apply Exists_cons_hd. reflexivity.
  - exists rows, older. split; [exact Hsplit|]. split; [exact Hlen|].
    intros piece Hpiece.
    destruct (Hpieces piece Hpiece) as (before & after & Hoccurs).
    eexists. exists before, after. split; [exact Hcalls | exact Hoccurs].
Defined.

(** ** Running the views *)

(** The store cuts the rows at 30: of 31 days only the 30 latest are read. *)
Example recent_attendance_limit :
  let days := Z.of_nat <$> seq 1 31 in
  let table := (λ d, AttendanceRow 7 d "present") <$> days in
  att_date <$> recent_attendance (Some 7) (Database [] [] [] [] table)
  = reverse (Z.of_nat <$> seq 2 30).
Proof. vm_compute. reflexivity. Qed.

(** Signup, refused login, approval, accepted login. *)
Example signup_then_approval :
  let body := SignupRequest (Some "A") (Some "a@x.com") (Some "p") (Some 1) None in
  let creds := LoginRequest (Some "a@x.com") (Some "p") (Some "teacher") in
  let w1 := (signup_teacher (env:=Sample.env) body Sample.as_admin).2 in
  let w2 := (approve_teacher (Some 3) w1).2 in
  status <$> [match (login (env:=Sample.env) creds w1).1 with
              | Returned r => r | Raised => Response 500 JNull end;
              match (login (env:=Sample.env) creds w2).1 with
              | Returned r => r | Raised => Response 500 JNull end]
  = [401; 200].
Proof. vm_compute. reflexivity. Qed.

(** ** The foreign keys are an invariant of the writes *)

Section store_invariant.
Context {env : Collaborators}.
Implicit Types (db : database) (c : connection).

Lemma insert_teacher_keeps_keys name email password (cid : Z)
  (phone : option string) c c' :
  foreign_keys_hold (pending c) →
  insert_teacher name email password cid phone c = inr c' →
  foreign_keys_hold (pending c').
Proof.
  intros [Hteachers Hstudents]. unfold insert_teacher.
  case_decide as Hdup; [done|]. case_decide as Hclass; [done|].
  intros [= <-]. split; simpl; [|done].
  apply Forall_app. split; [done|].
  apply Forall_singleton. simpl.
  apply not_Forall_Exists in Hclass; [|apply _].
  eapply Exists_impl; [exact Hclass|].
  intros k Hk. simpl in Hk. destruct (decide (class_id k = cid)); done.
Qed.

Lemma delete_class_row_keeps_keys (cid : Z) c c' :
  foreign_keys_hold (pending c) →
  delete_class_row cid c = inr c' →
  foreign_keys_hold (pending c').
Proof.
  intros [Hteachers Hstudents]. unfold delete_class_row.
  case_decide as Hused; [done|]. intros [= <-].
  assert (∀ target,
            Exists (λ k, class_id k = target) (classes (pending c)) →
            (target = cid → referenced cid (pending c)) →
            Exists (λ k, class_id k = target)
              (filter (λ k, class_id k ≠ cid) (classes (pending c)))) as Hkeep.
  { intros target Hex Href.
    apply Exists_exists in Hex as (k & Hin & Hk).
    apply Exists_exists. exists k. split; [|done].
    apply list_elem_of_filter. split; [|done].
    intros Heq. apply Hused. split.
    - apply Exists_exists. by exists k.
    - apply Href. congruence. }
  split; simpl.
  - apply Forall_forall. intros t Hin. apply Hkeep.
    + by apply (proj1 (Forall_forall _ _) Hteachers).
    + intros Heq. left. apply Exists_exists. by exists t.
  - apply Forall_forall. intros s Hin. apply Hkeep.
    + by apply (proj1 (Forall_forall _ _) Hstudents).
    + intros Heq. right. apply Exists_exists. by exists s.
Qed.

Lemma update_is_approved_keeps_keys (tid : option Z) c :
  foreign_keys_hold (pending c) →
  foreign_keys_hold (pending (update_is_approved tid c)).
Proof.
  intros [Hteachers Hstudents]. split; simpl; [|done].
  apply Forall_fmap. eapply Forall_impl; [exact Hteachers|].
  intros t Ht. simpl. unfold approve_row. by case_decide.
Qed.
End store_invariant.

(** * Further properties of the views *)

(** ** Sessions: login, logout, check_session *)

Section session_properties.
Context {env : Collaborators}.
Implicit Types (data : login_request) (w : world).

Lemma user_data_role data (c : connection) (row : Z * string * string) :
  user_data_for data c = Some row →
  lr_role data = Some "admin" ∨ lr_role data = Some "teacher"
  ∨ lr_role data = Some "student".
Proof.
  unfold user_data_for. repeat case_decide; auto. discriminate.
Qed.

Lemma login_accepts data w (uid : Z) (name pwhash : string) :
  user_data_for data (get_db_connection (store w)) = Some (uid, name, pwhash) →
  check_password_hash pwhash (lr_password data) = Some true →
  let shown := if decide (lr_role data ≠ Some "admin") then name else "Admin" in
  login data w
  = (Returned (login_success uid shown (lr_role data)),
     with_session w
       (<["name" := PStr shown]>
          (<["role" := of_field (lr_role data)]>
             (<["user_id" := PInt uid]> (session w))))).
Proof. intros Hrow Hcheck. unfold login. by rewrite Hrow, Hcheck. Qed.

Lemma shown_name (role name : string) :
  (if decide (Some role ≠ Some "admin") then name else "Admin")
  = (if decide (role = "admin") then "Admin" else name).
Proof. repeat case_decide; congruence. Qed.

Lemma login_session data w (uid : Z) (name pwhash : string) :
  user_data_for data (get_db_connection (store w)) = Some (uid, name, pwhash) →
  check_password_hash pwhash (lr_password data) = Some true →
  ∃ role,
    lr_role data = Some role
    ∧ (role = "admin" ∨ role = "teacher" ∨ role = "student")
    ∧ (login data w).1
      = Returned (login_success uid
                    (if decide (role = "admin") then "Admin" else name)
                    (Some role))
    ∧ store (login data w).2 = store w
    ∧ session (login data w).2 !! "user_id" = Some (PInt uid)
    ∧ session (login data w).2 !! "role" = Some (PStr role)
    ∧ session (login data w).2 !! "name"
      = Some (PStr (if decide (role = "admin") then "Admin" else name)).
Proof.
  intros Hrow Hcheck.
  assert (∃ role, lr_role data = Some role
                  ∧ (role = "admin" ∨ role = "teacher" ∨ role = "student"))
    as (role & Hrole & Hcases).
  { destruct (user_data_role _ _ _ Hrow) as [Hr | [Hr | Hr]]; eauto 6. }
  exists role. split; [done|]. split; [done|].
  rewrite (login_accepts data w uid name pwhash Hrow Hcheck).
  rewrite Hrole, shown_name. cbn [fst snd with_session store session of_field].
  repeat split.
  - rewrite lookup_insert_ne by done. rewrite lookup_insert_ne by done.
    by rewrite lookup_insert_eq.
  - rewrite lookup_insert_ne by done. by rewrite lookup_insert_eq.
  - by rewrite lookup_insert_eq.
Qed.

(** After an accepted login the session carries the id of the credential
    row, the requested role (one of the three) and the display name, which
    is "Admin" for an admin and the row's name otherwise; the response shows
    the same three values and the store is not touched. *)
Theorem login_establishes_session data w (uid : Z) (name pwhash : string) :
  user_data_for data (get_db_connection (store w)) = Some (uid, name, pwhash) →
  check_password_hash pwhash (lr_password data) = Some true →
  ∃ role shown,
    lr_role data = Some role
    ∧ (role = "admin" ∨ role = "teacher" ∨ role = "student")
    ∧ shown = (if decide (role = "admin") then "Admin" else name)
    ∧ (login data w).1
      = Returned
          (Response 200
             (JObj [("success", JBool true);
                    ("user", JObj [("id", JNum uid); ("name", JStr shown);
                                   ("role", JStr role)])]))
    ∧ store (login data w).2 = store w
    ∧ session (login data w).2 !! "user_id" = Some (PInt uid)
    ∧ session (login data w).2 !! "role" = Some (PStr role)
    ∧ session (login data w).2 !! "name" = Some (PStr shown).
Proof.
  intros Hrow Hcheck.
  destruct (login_session data w uid name pwhash Hrow Hcheck)
    as (role & Hrole & Hcases & Hresp & Hstore & Hid & Hsess & Hname).
  exists role, (if decide (role = "admin") then "Admin" else name).
  by repeat split.
Qed.

(** A request whose role is none of admin, teacher, student (or is missing)
    is refused with the 401 response whatever identifier and password it
    carries; nothing changes. *)
Theorem login_unknown_role data w :
  lr_role data ≠ Some "admin" → lr_role data ≠ Some "teacher" →
  lr_role data ≠ Some "student" →
  login data w
  = (Returned (Response 401
                 (message "Invalid credentials or account not approved")), w).
Proof.
  intros Ha Ht Hs. unfold login, user_data_for.
  by rewrite !decide_False by done.
Qed.

(** What an accepted login answers is what [check_session] answers on the
    session it leaves. *)
Theorem check_session_after_login data w (uid : Z) (name pwhash : string) :
  user_data_for data (get_db_connection (store w)) = Some (uid, name, pwhash) →
  check_password_hash pwhash (lr_password data) = Some true →
  check_session tt (login data w).2 = login data w.
Proof.
  intros Hrow Hcheck.
  rewrite (login_accepts data w uid name pwhash Hrow Hcheck). simpl.
  destruct (user_data_role _ _ _ Hrow) as [Hr | [Hr | Hr]]; rewrite Hr;
    unfold check_session; simpl;
    rewrite decide_False
      by (rewrite lookup_insert_ne by done; rewrite lookup_insert_ne by done;
          by rewrite lookup_insert_eq);
    rewrite (lookup_insert_ne _ "name" "user_id") by done;
    rewrite (lookup_insert_ne _ "role" "user_id") by done;
    rewrite (lookup_insert_eq _ "user_id");
    rewrite (lookup_insert_eq _ "name");
    rewrite (lookup_insert_ne _ "name" "role") by done;
    rewrite (lookup_insert_eq _ "role"); done.
Qed.

(** After an accepted login, an endpoint restricted to the role just used
    runs its view, and an endpoint restricted to any other role answers 403
    without running it. *)
Theorem gate_after_login {A : Type} data w (uid : Z) (name pwhash : string)
  (required : string) (f : handler A) (args : A) :
  user_data_for data (get_db_connection (store w)) = Some (uid, name, pwhash) →
  check_password_hash pwhash (lr_password data) = Some true →
  required ≠ EmptyString →
  (lr_role data = Some required →
   login_required (Some required) f args (login data w).2
   = f args (login data w).2)
  ∧ (lr_role data ≠ Some required →
     login_required (Some required) f args (login data w).2
     = (Returned (Response 403 (message "Forbidden")), (login data w).2)).
Proof.
  intros Hrow Hcheck Hreq.
  destruct (login_session data w uid name pwhash Hrow Hcheck)
    as (role & Hrole & _ & _ & _ & Hid & Hsess & _).
  split.
  - intros Hsame. apply login_required_pass. split.
    + rewrite Hid. discriminate.
    + rewrite Hsess. congruence.
  - intros Hother. unfold login_required.
    rewrite decide_False by (rewrite Hid; discriminate).
    rewrite truthy_str_Some by done. rewrite Hsess. simpl.
    rewrite bool_decide_eq_true_2; [done|]. congruence.
Qed.
End session_properties.

(** Logging out always answers 200 and empties the session, whatever it
    held: afterwards every endpoint behind [login_required] answers 401
    without running its view, [check_session] answers 401, the store is as
    before, and logging out again changes nothing more. *)
Theorem logout_closes_session {A : Type} (role : option string)
  (f : handler A) (args : A) (w : world) :
  (logout tt w).1 = Returned (Response 200 (JObj [("success", JBool true)]))
  ∧ store (logout tt w).2 = store w
  ∧ login_required role f args (logout tt w).2
    = (Returned (Response 401 (message "Authentication required")),
       (logout tt w).2)
  ∧ check_session tt (logout tt w).2
    = (Returned (Response 401 (JObj [("success", JBool false)])),
       (logout tt w).2)
  ∧ logout tt (logout tt w).2 = logout tt w.
Proof.
  unfold logout, login_required, check_session. simpl.
  rewrite !decide_True by apply lookup_empty. done.
Qed.

Lemma login_establishes_session_witness :
  (login (env:=Sample.env)
     (LoginRequest (Some "root") (Some "s3cret") (Some "admin"))
     Sample.anonymous).1
  = Returned
      (Response 200
         (JObj [("success", JBool true);
                ("user", JObj [("id", JNum 1); ("name", JStr "Admin");
                               ("role", JStr "admin")])])).
Proof.
  destruct (login_establishes_session (env:=Sample.env)
              (LoginRequest (Some "root") (Some "s3cret") (Some "admin"))
              Sample.anonymous 1 "root" (Sample.hash_of "s3cret"))
    as (role & shown & Hrole & _ & Hshown & Hresp & _); [reflexivity..|].
  injection Hrole as <-. rewrite Hresp, Hshown. reflexivity.
Defined.

Lemma login_unknown_role_witness :
  login (env:=Sample.env)
    (LoginRequest (Some "root") (Some "s3cret") (Some "janitor"))
    Sample.anonymous
  = (Returned (Response 401
                 (message "Invalid credentials or account not approved")),
     Sample.anonymous).
Proof.
  apply (login_unknown_role (env:=Sample.env)); simpl; discriminate.
Defined.

Lemma check_session_after_login_witness :
  let creds := LoginRequest (Some "ann@x.com") (Some "pa") (Some "teacher") in
  check_session tt (login (env:=Sample.env) creds Sample.anonymous).2
  = login (env:=Sample.env) creds Sample.anonymous.
Proof.
  intros creds.
  apply (check_session_after_login (env:=Sample.env) creds Sample.anonymous
           1 "Ann" (Sample.hash_of "pa")); reflexivity.
Defined.

Lemma gate_after_login_witness :
  let creds := LoginRequest (Some "ann@x.com") (Some "pa") (Some "teacher") in
  let w := (login (env:=Sample.env) creds Sample.anonymous).2 in
  login_required (Some "teacher") approve_teacher_view (Some 2) w
  = approve_teacher_view (Some 2) w
  ∧ login_required (Some "admin") approve_teacher_view (Some 2) w
    = (Returned (Response 403 (message "Forbidden")), w).
Proof.
  intros creds w.
  assert (Hrow : user_data_for creds
                   (get_db_connection (store Sample.anonymous))
                 = Some (1, "Ann", Sample.hash_of "pa")) by reflexivity.
  assert (Hcheck : check_password_hash (Collaborators:=Sample.env)
                     (Sample.hash_of "pa") (lr_password creds) = Some true)
    by reflexivity.
  split.
  - apply (gate_after_login (env:=Sample.env) creds Sample.anonymous 1 "Ann"
             (Sample.hash_of "pa") "teacher" approve_teacher_view (Some 2)
             Hrow Hcheck); [discriminate | reflexivity].
  - apply (gate_after_login (env:=Sample.env) creds Sample.anonymous 1 "Ann"
             (Sample.hash_of "pa") "admin" approve_teacher_view (Some 2)
             Hrow Hcheck); [discriminate | simpl; discriminate].
Defined.

(** ** Teacher signup, continued *)

Section signup_more.
Context {env : Collaborators}.
Implicit Types (data : signup_request) (w : world).

Lemma insert_teacher_accepts name email pwhash (cid : Z)
  (phone : option string) (db : database) :
  Forall (λ t, teacher_email t ≠ email) (teachers db) →
  Exists (λ k, class_id k = cid) (classes db) →
  insert_teacher name email pwhash cid phone (get_db_connection db)
  = inr (with_pending (get_db_connection db)
           (set_teachers db
              (teachers db
               ++ [TeacherRow (next_id (teacher_id <$> teachers db)) name email
                     pwhash cid phone false]))).
Proof.
  intros Hfresh Hclass. unfold insert_teacher. simpl.
  rewrite decide_False.
  - rewrite decide_False; [done|].
    intros Hnone. apply Exists_exists in Hclass as (k & Hin & Hk).
    by apply (proj1 (Forall_forall _ _) Hnone k).
  - intros (t & Hin & Ht)%Exists_exists.
    by apply (proj1 (Forall_forall _ _) Hfresh t).
Qed.

Lemma signup_teacher_accepted data w name email password (cid : Z) :
  signup_fields data name email password cid →
  Forall (λ t, teacher_email t ≠ email) (teachers (store w)) →
  Exists (λ k, class_id k = cid) (classes (store w)) →
  signup_teacher data w
  = (Returned signup_successful,
     with_store w
       (set_teachers (store w)
          (teachers (store w)
           ++ [TeacherRow (next_id (teacher_id <$> teachers (store w))) name
                 email (generate_password_hash password) cid (su_phone data)
                 false]))).
Proof.
  intros Hfields Hfresh Hclass.
  rewrite (signup_teacher_complete _ _ _ _ _ _ Hfields).
  by rewrite insert_teacher_accepts.
Qed.

(** A complete signup with an email no teacher has and a class that exists
    answers 201 and adds exactly one teacher row to the table, everything
    else staying as it was: the row has an id that no teacher carried, the
    submitted name, email, class and phone, the hash computed by the
    password library in place of the password, and [is_approved = false]. *)
Theorem signup_teacher_inserts data w name email password (cid : Z) :
  signup_fields data name email password cid →
  Forall (λ t, teacher_email t ≠ email) (teachers (store w)) →
  Exists (λ k, class_id k = cid) (classes (store w)) →
  ∃ new_id,
    Forall (λ t, teacher_id t ≠ new_id) (teachers (store w))
    ∧ signup_teacher data w
      = (Returned
           (Response 201
              (message "Signup successful! Please wait for admin approval.")),
         with_store w
           (set_teachers (store w)
              (teachers (store w)
               ++ [TeacherRow new_id name email
                     (generate_password_hash password) cid (su_phone data)
                     false]))).
Proof.
  intros Hfields Hfresh Hclass.
  exists (next_id (teacher_id <$> teachers (store w))). split.
  - apply Forall_forall. intros t Hin Heq.
    apply (next_id_fresh (teacher_id <$> teachers (store w))).
    rewrite <- Heq. by apply list_elem_of_fmap_2.
  - by apply signup_teacher_accepted.
Qed.

(** Signing up a second time with the email of an accepted signup answers
    409 and changes nothing: the table holds one row with that email, the
    one the first signup inserted. *)
Theorem signup_teacher_twice data w name email password (cid : Z)
  (again : signup_request) name' password' (cid' : Z) :
  signup_fields data name email password cid →
  Forall (λ t, teacher_email t ≠ email) (teachers (store w)) →
  Exists (λ k, class_id k = cid) (classes (store w)) →
  signup_fields again name' email password' cid' →
  let w1 := (signup_teacher data w).2 in
  signup_teacher again w1
  = (Returned (Response 409 (message "Email address already exists")), w1)
  ∧ ∃ new_id,
      filter (λ t, teacher_email t = email) (teachers (store w1))
      = [TeacherRow new_id name email (generate_password_hash password) cid
           (su_phone data) false].
Proof.
  intros Hfields Hfresh Hclass Hagain w1.
  pose proof (signup_teacher_accepted data w name email password cid
                Hfields Hfresh Hclass) as Hrun.
  subst w1. rewrite Hrun. simpl. split.
  - rewrite (signup_teacher_complete _ _ _ _ _ _ Hagain).
    unfold insert_teacher. simpl. rewrite decide_True; [done|].
    apply Exists_app. right. by apply Exists_cons_hd.
  - exists (next_id (teacher_id <$> teachers (store w))).
    rewrite filter_app, filter_none by done.
    by rewrite filter_cons_True.
Qed.

(** A body whose [name], [email] or [password] is the empty string, or whose
    [class_id] is 0, is refused like a body that lacks the field: 400 with
    the missing-fields message, nothing inserted. *)
Theorem signup_teacher_empty_field data w :
  su_name data = Some EmptyString ∨ su_email data = Some EmptyString
  ∨ su_password data = Some EmptyString ∨ su_class_id data = Some 0 →
  signup_teacher data w
  = (Returned (Response 400 (message "Missing required fields")), w).
Proof.
  intros Hempty. apply signup_teacher_falsy.
  destruct Hempty as [-> | [-> | [-> | ->]]]; auto.
Qed.
End signup_more.

Section signup_scenario.
Context {env : Collaborators}.
Implicit Types (data : signup_request) (w : world).

Lemma approve_row_email (tid : option Z) (t : teacher_row) :
  teacher_email (approve_row tid t) = teacher_email t.
Proof. unfold approve_row. by case_decide. Qed.

Lemma user_data_for_teacher (creds : login_request) (c : connection) :
  lr_role creds = Some "teacher" →
  user_data_for creds c
  = fetchone (select_approved_teacher (lr_username creds) c).
Proof.
  intros Hrole. unfold user_data_for. rewrite Hrole.
  rewrite decide_False by discriminate. by rewrite decide_True.
Qed.

Lemma pending_row_login_refused (creds : login_request) w :
  lr_role creds = Some "teacher" →
  Forall (λ t, sql_eq (teacher_email t) (lr_username creds) →
               is_approved t = false) (teachers (store w)) →
  login creds w = (Returned invalid_credentials, w).
Proof.
  intros Hrole Hrows. apply login_failure_response. apply no_row.
  rewrite user_data_for_teacher by done.
  unfold select_approved_teacher, fetchone. simpl.
  rewrite filter_none; [done|].
  eapply Forall_impl; [exact Hrows|]. intros t Ht [Hmail Happroved].
  specialize (Ht Hmail). congruence.
Qed.

(** The life of a new account.  An accepted signup gives the teacher an
    id; logging in as that teacher with the right password is then refused
    with 401 whatever the session; once an admin has approved that id, the
    same login is accepted with that id, the submitted name and the role
    teacher.  The password library is assumed to accept a password against
    its own hash. *)
Theorem signup_approve_login data w name email password (cid : Z) :
  signup_fields data name email password cid →
  Forall (λ t, teacher_email t ≠ email) (teachers (store w)) →
  Exists (λ k, class_id k = cid) (classes (store w)) →
  check_password_hash (generate_password_hash password) (Some password)
  = Some true →
  let creds := LoginRequest (Some email) (Some password) (Some "teacher") in
  let w1 := (signup_teacher data w).2 in
  ∃ new_id,
    teachers (store w1)
    = (teachers (store w)
       ++ [TeacherRow new_id name email (generate_password_hash password) cid
             (su_phone data) false])%list
    ∧ (∀ visitor, store visitor = store w1 →
         login creds visitor
         = (Returned (Response 401
                        (message "Invalid credentials or account not approved")),
            visitor))
    ∧ (∀ admin visitor,
         logged_in_as "admin" admin → store admin = store w1 →
         store visitor = store (approve_teacher (Some new_id) admin).2 →
         (login creds visitor).1
         = Returned
             (Response 200
                (JObj [("success", JBool true);
                       ("user", JObj [("id", JNum new_id); ("name", JStr name);
                                      ("role", JStr "teacher")])]))).
Proof.
  intros Hfields Hfresh Hclass Hlib creds w1.
  pose proof (signup_teacher_accepted data w name email password cid
                Hfields Hfresh Hclass) as Hrun.
  set (new_id := next_id (teacher_id <$> teachers (store w))) in *.
  assert (teachers (store w1)
          = (teachers (store w)
             ++ [TeacherRow new_id name email (generate_password_hash password)
                   cid (su_phone data) false])%list) as Hrows.
  { subst w1. by rewrite Hrun. }
  exists new_id. split; [exact Hrows|]. split.
  - intros visitor Hstore. apply pending_row_login_refused; [done|].
    rewrite Hstore, Hrows. apply Forall_app. split.
    + eapply Forall_impl; [exact Hfresh|]. intros t Ht Hmail.
      unfold sql_eq in Hmail. simpl in Hmail. congruence.
    + by apply Forall_singleton.
  - intros admin visitor Hadmin Hstore Hvisitor.
    assert (user_data_for creds (get_db_connection (store visitor))
            = Some (new_id, name, generate_password_hash password)) as Hrow.
    { rewrite Hvisitor. unfold approve_teacher.
      rewrite (login_required_pass "admin" _ _ admin Hadmin).
      rewrite approve_teacher_view_eq. rewrite user_data_for_teacher by done.
      simpl. rewrite Hstore, Hrows.
      unfold select_approved_teacher, fetchone. simpl.
      rewrite fmap_app, filter_app. rewrite filter_none.
      - simpl. unfold approve_row at 1. simpl.
        rewrite decide_True by done. by rewrite filter_cons_True.
      - apply Forall_fmap. eapply Forall_impl; [exact Hfresh|].
        intros t Ht [Hmail _]. simpl in Hmail.
        rewrite approve_row_email in Hmail.
        unfold sql_eq in Hmail. congruence. }
    destruct (login_session creds visitor new_id name
                (generate_password_hash password) Hrow Hlib)
      as (role & Hrole & _ & Hresp & _).
    injection Hrole as <-. rewrite Hresp.
    by rewrite decide_False by discriminate.
Qed.
End signup_scenario.

Lemma signup_teacher_inserts_witness :
  let body := SignupRequest (Some "A") (Some "a@x.com") (Some "p") (Some 1) None in
  ∃ new_id,
    Forall (λ t, teacher_id t ≠ new_id) (teachers Sample.db)
    ∧ teachers (store (signup_teacher (env:=Sample.env) body Sample.anonymous).2)
      = (teachers Sample.db
         ++ [TeacherRow new_id "A" "a@x.com" (Sample.hash_of "p") 1 None false])%list.
Proof.
  intros body.
  assert (Hfields : signup_fields body "A" "a@x.com" "p" 1)
    by (repeat split; discriminate).
  destruct (signup_teacher_inserts (env:=Sample.env) body Sample.anonymous
              "A" "a@x.com" "p" 1 Hfields) as (new_id & Hfresh & Hrun).
  - repeat constructor; simpl; discriminate.
  - apply Exists_cons_hd. reflexivity.
  - exists new_id. split; [exact Hfresh|]. by rewrite Hrun.
Defined.

Lemma signup_teacher_twice_witness :
  let body := SignupRequest (Some "A") (Some "a@x.com") (Some "p") (Some 1) None in
  let again := SignupRequest (Some "B") (Some "a@x.com") (Some "q") (Some 2) None in
  let w1 := (signup_teacher (env:=Sample.env) body Sample.anonymous).2 in
  signup_teacher (env:=Sample.env) again w1
  = (Returned (Response 409 (message "Email address already exists")), w1).
Proof.
  intros body again w1.
  assert (Hfields : signup_fields body "A" "a@x.com" "p" 1)
    by (repeat split; discriminate).
  assert (Hagain : signup_fields again "B" "a@x.com" "q" 2)
    by (repeat split; discriminate).
  apply (signup_teacher_twice (env:=Sample.env) body Sample.anonymous
           "A" "a@x.com" "p" 1 again "B" "q" 2 Hfields); [| |exact Hagain].
  - repeat constructor; simpl; discriminate.
  - apply Exists_cons_hd. reflexivity.
Defined.

Lemma signup_teacher_empty_field_witness :
  signup_teacher (env:=Sample.env)
    (SignupRequest (Some "A") (Some "a@x.com") (Some "p") (Some 0) None)
    Sample.anonymous
  = (Returned (Response 400 (message "Missing required fields")),
     Sample.anonymous).
Proof.
  apply (signup_teacher_empty_field (env:=Sample.env)). simpl. auto.
Defined.

Lemma signup_approve_login_witness :
  let body := SignupRequest (Some "A") (Some "a@x.com") (Some "p") (Some 1) None in
  let creds := LoginRequest (Some "a@x.com") (Some "p") (Some "teacher") in
  let w1 := (signup_teacher (env:=Sample.env) body Sample.as_admin).2 in
  ∃ new_id,
    login (env:=Sample.env) creds w1
    = (Returned (Response 401
                   (message "Invalid credentials or account not approved")), w1)
    ∧ (login (env:=Sample.env) creds (approve_teacher (Some new_id) w1).2).1
      = Returned
          (Response 200
             (JObj [("success", JBool true);
                    ("user", JObj [("id", JNum new_id); ("name", JStr "A");
                                   ("role", JStr "teacher")])])).
Proof.
  intros body creds w1.
  assert (Hfields : signup_fields body "A" "a@x.com" "p" 1)
    by (repeat split; discriminate).
  destruct (signup_approve_login (env:=Sample.env) body Sample.as_admin
              "A" "a@x.com" "p" 1 Hfields) as (new_id & _ & Hbefore & Hafter).
  - repeat constructor; simpl; discriminate.
  - apply Exists_cons_hd. reflexivity.
  - reflexivity.
  - exists new_id. split.
    + apply Hbefore. reflexivity.
    + apply (Hafter w1); [|reflexivity..].
      split; [vm_compute; discriminate | reflexivity].
Defined.

(** ** The keys of the store are kept by every view that writes *)

Lemma NoDup_fmap_filter {A B : Type} (f : A → B) (P : A → Prop)
  `{∀ x, Decision (P x)} (l : list A) :
  NoDup (f <$> l) → NoDup (f <$> filter P l).
Proof.
  induction l as [|x l IH]; [done|].
  rewrite fmap_cons. intros [Hx Hl]%NoDup_cons.
  rewrite filter_cons. case_decide; [|by apply IH].
  rewrite fmap_cons. apply NoDup_cons. split; [|by apply IH].
  intros (y & Hy & Hin)%list_elem_of_fmap. apply Hx.
  apply list_elem_of_fmap. exists y. split; [done|].
  by apply list_elem_of_filter in Hin as [_ Hin].
Qed.

Lemma NoDup_fmap_snoc {A B : Type} (f : A → B) (l : list A) (x : A) :
  NoDup (f <$> l) → f x ∉ f <$> l → NoDup (f <$> (l ++ [x])%list).
Proof.
  intros Hl Hx. rewrite fmap_app. apply NoDup_app. split; [done|].
  split; [|apply NoDup_singleton].
  intros y Hy Hin. apply list_elem_of_singleton in Hin. by subst y.
Qed.

Lemma gate_runs_or_rejects {A : Type} (role : option string) (f : handler A)
  (args : A) (w : world) :
  (login_required role f args w).2 = w
  ∨ login_required role f args w = f args w.
Proof.
  unfold login_required. case_decide; [by left|].
  destruct (truthy_str role && _); [by left | by right].
Qed.

Section consistency.
Context {env : Collaborators} {collation : Collation}.
Implicit Types (db : database) (c : connection) (w : world).

Lemma insert_teacher_consistent name email password (cid : Z)
  (phone : option string) c c' :
  store_consistent (pending c) →
  insert_teacher name email password cid phone c = inr c' →
  store_consistent (pending c').
Proof.
  intros (Hfk & Hmail & Hid & Hcls) Hrun.
  split; [by eapply insert_teacher_keeps_keys|].
  revert Hrun. unfold insert_teacher.
  case_decide as Hdup; [done|]. case_decide as Hclass; [done|].
  intros [= <-]. simpl. split; [|split; [|done]].
  - apply NoDup_fmap_snoc; [done|]. simpl.
    intros (t & Ht & Hin)%list_elem_of_fmap. apply Hdup.
    apply Exists_exists. by exists t.
  - apply NoDup_fmap_snoc; [done|]. simpl. apply next_id_fresh.
Qed.

Lemma update_is_approved_consistent (tid : option Z) c :
  store_consistent (pending c) →
  store_consistent (pending (update_is_approved tid c)).
Proof.
  intros (Hfk & Hmail & Hid & Hcls).
  split; [by apply update_is_approved_keeps_keys|]. simpl.
  rewrite <- !list_fmap_compose.
  rewrite (list_fmap_ext (teacher_email ∘ approve_row tid) teacher_email)
    by (intros i t _; apply approve_row_email).
  rewrite (list_fmap_ext (teacher_id ∘ approve_row tid) teacher_id)
    by (intros i t _; apply approve_row_id).
  done.
Qed.

Lemma delete_class_row_consistent (cid : Z) c c' :
  store_consistent (pending c) →
  delete_class_row cid c = inr c' →
  store_consistent (pending c').
Proof.
  intros (Hfk & Hmail & Hid & Hcls) Hrun.
  split; [by eapply delete_class_row_keeps_keys|].
  revert Hrun. unfold delete_class_row. case_decide; [done|].
  intros [= <-]. simpl. split; [done|]. split; [done|].
  by apply NoDup_fmap_filter.
Qed.

Lemma insert_class_consistent (name : string) c :
  store_consistent (pending c) →
  store_consistent (pending (insert_class name c)).
Proof.
  intros ((Hteachers & Hstudents) & Hmail & Hid & Hcls).
  split; [|split; [done|split; [done|]]]; simpl.
  - split; simpl.
    + eapply Forall_impl; [exact Hteachers|]. intros t Ht.
      apply Exists_app. by left.
    + eapply Forall_impl; [exact Hstudents|]. intros s Hs.
      apply Exists_app. by left.
  - apply NoDup_fmap_snoc; [done|]. simpl. apply next_id_fresh.
Qed.

(** Whatever the request and whoever sends it, the four views that write
    (signup, approval, class deletion, class creation) leave a store whose
    foreign keys hold and whose teacher emails, teacher ids and class ids
    are unique, when they find one. *)
Theorem views_keep_store_consistent w :
  store_consistent (store w) →
  (∀ data, store_consistent (store (signup_teacher data w).2))
  ∧ (∀ tid, store_consistent (store (approve_teacher tid w).2))
  ∧ (∀ cid, store_consistent (store (delete_class cid w).2))
  ∧ (∀ req, store_consistent (store (manage_classes req w).2)).
Proof.
  intros Hw. split; [|split; [|split]].
  - intros data. unfold signup_teacher. destruct (negb _); [done|].
    destruct (su_name data) as [name|]; [|done].
    destruct (su_email data) as [email|]; [|done].
    destruct (su_password data) as [password|]; [|done].
    destruct (su_class_id data) as [cid|]; [|done].
    destruct (insert_teacher _ _ _ _ _ _) as [[text|text]|c'] eqn:Hrun;
      try done.
    simpl. eapply insert_teacher_consistent; [|exact Hrun]. exact Hw.
  - intros tid. unfold approve_teacher.
    destruct (gate_runs_or_rejects (Some "admin") approve_teacher_view tid w)
      as [-> | ->]; [done|].
    rewrite approve_teacher_view_eq. simpl.
    by apply (update_is_approved_consistent tid (get_db_connection (store w))).
  - intros cid. unfold delete_class.
    destruct (gate_runs_or_rejects (Some "admin") delete_class_view cid w)
      as [-> | ->]; [done|].
    unfold delete_class_view.
    destruct (delete_class_row _ _) as [e|c'] eqn:Hrun; [done|].
    simpl. eapply delete_class_row_consistent; [|exact Hrun]. exact Hw.
  - intros req. unfold manage_classes.
    destruct (gate_runs_or_rejects (Some "admin") manage_classes_view req w)
      as [-> | ->]; [done|].
    unfold manage_classes_view. destruct req as [|name]; [done|].
    simpl. by apply (insert_class_consistent name (get_db_connection (store w))).
Qed.
End consistency.

Lemma views_keep_store_consistent_witness :
  store_consistent
    (store (signup_teacher (env:=Sample.env)
              (SignupRequest (Some "A") (Some "a@x.com") (Some "p") (Some 1) None)
              Sample.as_admin).2)
  ∧ store_consistent (store (delete_class (env:=Sample.env) 2 Sample.as_admin).2).
Proof.
  assert (Hdb : store_consistent (store Sample.as_admin)).
  { apply (bool_decide_unpack _). by vm_compute. }
  destruct (views_keep_store_consistent (env:=Sample.env)
              (collation:=Bytewise.collation) Sample.as_admin Hdb)
    as (Hsignup & _ & Hdelete & _).
  split; [apply Hsignup | apply Hdelete].
Defined.

(** ** Approval and the pending list *)

Lemma approve_row_same (tid : option Z) (t : teacher_row) :
  same_but_approval t (approve_row tid t).
Proof. unfold approve_row, same_but_approval. by case_decide. Qed.

(** An approval touches nothing but the flag: the other four tables are as
    before, and the teachers table holds the same rows in the same places,
    each with every column but [is_approved] unchanged, the rows with
    another id being untouched altogether. *)
Theorem approve_teacher_only_sets_flag (tid : option Z) (w : world) :
  logged_in_as "admin" w →
  let db' := store (approve_teacher tid w).2 in
  admins db' = admins (store w) ∧ students db' = students (store w)
  ∧ classes db' = classes (store w) ∧ attendance db' = attendance (store w)
  ∧ Forall2 (λ t t', same_but_approval t t'
                     ∧ (¬ sql_eq (teacher_id t) tid → t' = t))
      (teachers (store w)) (teachers db').
Proof.
  intros Hadmin. unfold approve_teacher.
  rewrite (login_required_pass "admin" _ tid w Hadmin).
  rewrite approve_teacher_view_eq. simpl. repeat split.
  apply Forall2_fmap_r. apply Forall_Forall2_diag. apply Forall_forall.
  intros t _. simpl. split; [apply approve_row_same|apply approve_row_other].
Qed.

Lemma approve_teacher_only_sets_flag_witness :
  is_approved <$> teachers (store (approve_teacher (Some 2) Sample.as_admin).2)
  = [true; true]
  ∧ students (store (approve_teacher (Some 2) Sample.as_admin).2)
    = students Sample.db.
Proof.
  assert (Hadmin : logged_in_as "admin" Sample.as_admin).
  { split; [vm_compute; discriminate | reflexivity]. }
  destruct (approve_teacher_only_sets_flag (Some 2) Sample.as_admin Hadmin)
    as (_ & Hstudents & _).
  split; [reflexivity | exact Hstudents].
Defined.

Lemma get_pending_teachers_eq (w : world) :
  logged_in_as "admin" w →
  get_pending_teachers tt w
  = (Returned
       (jsonify
          (JObj [("teachers",
                  JArr (pending_json
                          <$> select_pending_teachers
                                (get_db_connection (store w))))])), w).
Proof.
  intros Hadmin. unfold get_pending_teachers.
  by rewrite (login_required_pass "admin" _ tt w Hadmin).
Qed.

Lemma select_pending_elem (c : connection)
  (r : Z * string * string * option string * string) :
  r ∈ select_pending_teachers c ↔
  ∃ t k, t ∈ teachers (pending c) ∧ is_approved t = false
         ∧ k ∈ classes (pending c) ∧ teacher_class_id t = class_id k
         ∧ r = (teacher_id t, teacher_name t, teacher_email t,
                teacher_phone t, class_name k).
Proof.
  unfold select_pending_teachers. rewrite list_elem_of_bind. split.
  - intros (t & Hr & [Hpending Ht]%list_elem_of_filter).
    apply list_elem_of_bind in Hr as (k & Hr & [Hk Hin]%list_elem_of_filter).
    apply list_elem_of_singleton in Hr. by exists t, k.
  - intros (t & k & Ht & Hpending & Hk & Hclass & ->).
    exists t. split; [|by apply list_elem_of_filter].
    apply list_elem_of_bind. exists k. split; [by apply list_elem_of_singleton|].
    by apply list_elem_of_filter.
Qed.

(** For an admin the pending list is made of rows of teachers that are not
    approved, each joined with the name of a class it points at; once a
    teacher id has been approved no row of the list carries it. *)
Theorem approved_teacher_leaves_pending_list (tid : Z) (w : world) :
  logged_in_as "admin" w →
  let w2 := (approve_teacher (Some tid) w).2 in
  ∃ rows,
    get_pending_teachers tt w2
    = (Returned (Response 200 (JObj [("teachers", JArr (pending_json <$> rows))])),
       w2)
    ∧ Forall (λ r, pending_id r ≠ tid
                   ∧ ∃ t k, t ∈ teachers (store w2) ∧ is_approved t = false
                            ∧ k ∈ classes (store w2)
                            ∧ teacher_class_id t = class_id k
                            ∧ r = (teacher_id t, teacher_name t, teacher_email t,
                                   teacher_phone t, class_name k)) rows.
Proof.
  intros Hadmin w2.
  assert (logged_in_as "admin" w2) as Hadmin2.
  { subst w2. unfold approve_teacher.
    rewrite (login_required_pass "admin" _ _ w Hadmin).
    by rewrite approve_teacher_view_eq. }
  exists (select_pending_teachers (get_db_connection (store w2))).
  split; [by apply get_pending_teachers_eq|].
  apply Forall_forall. intros r Hr.
  apply select_pending_elem in Hr as (t & k & Ht & Hpending & Hk & Hclass & ->).
  split; [|by exists t, k].
  unfold pending_id. simpl. intros Hid.
  subst w2. unfold approve_teacher in Ht.
  rewrite (login_required_pass "admin" _ _ w Hadmin) in Ht.
  rewrite approve_teacher_view_eq in Ht. simpl in Ht.
  apply list_elem_of_fmap in Ht as (t0 & -> & _).
  rewrite approve_row_id in Hid.
  rewrite approve_row_approved in Hpending; [done|].
  unfold sql_eq. by rewrite Hid.
Qed.

Lemma approved_teacher_leaves_pending_list_witness :
  let w2 := (approve_teacher (Some 2) Sample.as_admin).2 in
  ∃ rows,
    get_pending_teachers tt w2
    = (Returned (Response 200 (JObj [("teachers", JArr (pending_json <$> rows))])),
       w2)
    ∧ Forall (λ r, pending_id r ≠ 2) rows.
Proof.
  assert (Hadmin : logged_in_as "admin" Sample.as_admin).
  { split; [vm_compute; discriminate | reflexivity]. }
  destruct (approved_teacher_leaves_pending_list 2 Sample.as_admin Hadmin)
    as (rows & Hrun & Hrows).
  exists rows. split; [exact Hrun|].
  eapply Forall_impl; [exact Hrows|]. intros r [Hr _]. exact Hr.
Defined.

Lemma select_pending_ids (db : database) :
  foreign_keys_hold db → NoDup (class_id <$> classes db) →
  pending_id <$> select_pending_teachers (get_db_connection db)
  = teacher_id <$> filter (λ t, is_approved t = false) (teachers db).
Proof.
  intros [Hfk _] Hcls. unfold select_pending_teachers. simpl.
  assert (Forall (λ t, Exists (λ k, class_id k = teacher_class_id t) (classes db))
            (filter (λ t, is_approved t = false) (teachers db))) as Hrows.
  { apply Forall_forall. intros t [_ Hin]%list_elem_of_filter.
    by apply (proj1 (Forall_forall _ _) Hfk). }
  induction Hrows as [|t ts Ht _ IH]; [done|].
  rewrite bind_cons, fmap_app, IH, fmap_cons. f_equal.
  apply Exists_exists in Ht as (k & Hk & Hclass).
  rewrite <- Hclass. rewrite (filter_unique_key class_id _ k) by done.
  by rewrite bind_singleton.
Qed.

(** In a store whose keys hold, the pending list an admin gets has one row
    for every teacher that is not approved and no other row. *)
Theorem pending_list_is_complete (w : world) :
  logged_in_as "admin" w → store_consistent (store w) →
  ∃ rows,
    get_pending_teachers tt w
    = (Returned (Response 200 (JObj [("teachers", JArr (pending_json <$> rows))])),
       w)
    ∧ pending_id <$> rows
      ≡ₚ teacher_id <$> filter (λ t, is_approved t = false) (teachers (store w)).
Proof.
  intros Hadmin (Hfk & _ & _ & Hcls).
  exists (select_pending_teachers (get_db_connection (store w))).
  split; [by apply get_pending_teachers_eq|]. by rewrite select_pending_ids.
Qed.

Lemma pending_list_is_complete_witness :
  ∃ rows,
    (get_pending_teachers tt Sample.as_admin).1
    = Returned (Response 200 (JObj [("teachers", JArr (pending_json <$> rows))]))
    ∧ pending_id <$> rows ≡ₚ [2].
Proof.
  assert (Hadmin : logged_in_as "admin" Sample.as_admin).
  { split; [vm_compute; discriminate | reflexivity]. }
  assert (Hdb : store_consistent (store Sample.as_admin)).
  { apply (bool_decide_unpack _). by vm_compute. }
  destruct (pending_list_is_complete Sample.as_admin Hadmin Hdb)
    as (rows & Hrun & Hids).
  exists rows. split; [by rewrite Hrun | exact Hids].
Defined.

Section signup_pending.
Context {env : Collaborators}.

(** The teacher of an accepted signup is on the pending list an admin gets
    next, with an id no teacher carried before, the submitted name, email
    and phone, and the name of a class carrying the submitted class id. *)
Theorem new_signup_is_pending (data : signup_request) (w : world)
  name email password (cid : Z) (admin : world) :
  signup_fields data name email password cid →
  Forall (λ t, teacher_email t ≠ email) (teachers (store w)) →
  Exists (λ k, class_id k = cid) (classes (store w)) →
  logged_in_as "admin" admin →
  store admin = store (signup_teacher data w).2 →
  ∃ rows k new_id,
    get_pending_teachers tt admin
    = (Returned (Response 200 (JObj [("teachers", JArr (pending_json <$> rows))])),
       admin)
    ∧ k ∈ classes (store w) ∧ class_id k = cid
    ∧ Forall (λ t, teacher_id t ≠ new_id) (teachers (store w))
    ∧ (new_id, name, email, su_phone data, class_name k) ∈ rows.
Proof.
  intros Hfields Hfresh Hclass Hadmin Hstore.
  pose proof (signup_teacher_accepted data w name email password cid
                Hfields Hfresh Hclass) as Hrun.
  rewrite Hrun in Hstore. simpl in Hstore.
  pose proof Hclass as (k & Hk & Hcid)%Exists_exists.
  exists (select_pending_teachers (get_db_connection (store admin))), k,
         (next_id (teacher_id <$> teachers (store w))).
  split; [by apply get_pending_teachers_eq|]. split; [done|]. split; [done|].
  split.
  - apply Forall_forall. intros t Hin Heq.
    apply (next_id_fresh (teacher_id <$> teachers (store w))).
    rewrite <- Heq. by apply list_elem_of_fmap_2.
  - apply select_pending_elem. rewrite Hstore. simpl.
    exists (TeacherRow (next_id (teacher_id <$> teachers (store w))) name email
              (generate_password_hash password) cid (su_phone data) false), k.
    repeat split; try done.
    apply elem_of_app. right. apply list_elem_of_here.
Qed.
End signup_pending.

Lemma new_signup_is_pending_witness :
  let body := SignupRequest (Some "A") (Some "a@x.com") (Some "p") (Some 1) None in
  let w1 := (signup_teacher (env:=Sample.env) body Sample.as_admin).2 in
  ∃ rows,
    (get_pending_teachers tt w1).1
    = Returned (Response 200 (JObj [("teachers", JArr (pending_json <$> rows))]))
    ∧ ∃ new_id cname, (new_id, "A", "a@x.com", None, cname) ∈ rows.
Proof.
  intros body w1.
  assert (Hfields : signup_fields body "A" "a@x.com" "p" 1)
    by (repeat split; discriminate).
  destruct (new_signup_is_pending (env:=Sample.env) body Sample.as_admin
              "A" "a@x.com" "p" 1 w1 Hfields)
    as (rows & k & new_id & Hrun & _ & _ & _ & Hin).
  - repeat constructor; simpl; discriminate.
  - apply Exists_cons_hd. reflexivity.
  - split; [vm_compute; discriminate | reflexivity].
  - reflexivity.
  - exists rows. split; [by rewrite Hrun|]. by exists new_id, (class_name k).
Defined.

(** ** Classes: listing, creating, deleting *)

Lemma set_classes_id (db : database) : set_classes db (classes db) = db.
Proof. by destruct db. Qed.

Lemma filter_all {A : Type} (P : A → Prop) `{∀ x, Decision (P x)} (l : list A) :
  Forall P l → filter P l = l.
Proof.
  induction 1 as [|x l Hx _ IH]; [done|].
  rewrite filter_cons_True by done. by rewrite IH.
Qed.

Section class_properties.
Context {env : Collaborators} {collation : Collation}.
Implicit Types (w : world) (c : connection) (cid : Z).

Global Instance by_class_name_total : Total by_class_name.
Proof. intros k1 k2. unfold by_class_name. apply total, _. Qed.

Global Instance by_class_name_trans : Transitive by_class_name.
Proof. intros k1 k2 k3. unfold by_class_name. apply transitivity. Qed.

Lemma select_classes_perm c :
  select_classes c
  ≡ₚ (λ k, (class_id k, class_name k)) <$> classes (pending c).
Proof. unfold select_classes. by rewrite merge_sort_Permutation. Qed.

Lemma select_classes_sorted c :
  StronglySorted listed_by_name (select_classes c).
Proof.
  unfold select_classes.
  apply (StronglySorted_fmap _ by_class_name); [by intros k1 k2|].
  apply StronglySorted_merge_sort; apply _.
Qed.

Lemma select_classes_elem c (row : Z * string) :
  row ∈ select_classes c
  ↔ ∃ k, k ∈ classes (pending c) ∧ row = (class_id k, class_name k).
Proof.
  rewrite select_classes_perm, list_elem_of_fmap. split.
  - intros (k & -> & Hin). by exists k.
  - intros (k & Hin & ->). by exists k.
Qed.

(** Anyone, logged in or not, gets from [get_classes] a 200 whose list has
    one entry for every row of the classes table and no other, in
    ascending order of name; nothing changes. *)
Theorem get_classes_lists_every_class w :
  ∃ rows,
    get_classes tt w
    = (Returned (Response 200 (JObj [("classes", JArr (class_json <$> rows))])),
       w)
    ∧ rows ≡ₚ (λ k, (class_id k, class_name k)) <$> classes (store w)
    ∧ StronglySorted listed_by_name rows.
Proof.
  exists (select_classes (get_db_connection (store w))).
  split; [done|]. split; [apply select_classes_perm|apply select_classes_sorted].
Qed.

(** For an admin, creating a class adds one row with the given name and an
    id no class carried to the classes table and answers 200 with the
    listing of the table including it, in ascending order of name; asking
    for the list instead answers what [get_classes] answers. *)
Theorem manage_classes_creates_and_lists w (name : string) :
  logged_in_as "admin" w →
  (∃ new_id rows,
      Forall (λ k, class_id k ≠ new_id) (classes (store w))
      ∧ manage_classes (CreateClass name) w
        = (Returned (Response 200 (JObj [("classes", JArr (class_json <$> rows))])),
           with_store w
             (set_classes (store w)
                (classes (store w) ++ [ClassRow new_id name])))
      ∧ rows ≡ₚ ((λ k, (class_id k, class_name k))
                   <$> (classes (store w) ++ [ClassRow new_id name])%list)
      ∧ StronglySorted listed_by_name rows)
  ∧ manage_classes ListClasses w = get_classes tt w.
Proof.
  intros Hadmin. unfold manage_classes.
  rewrite !(login_required_pass "admin" _ _ w Hadmin). split.
  - exists (next_id (class_id <$> classes (store w))). eexists. split; [|split].
    + apply Forall_forall. intros k Hin Heq.
      apply (next_id_fresh (class_id <$> classes (store w))).
      rewrite <- Heq. by apply list_elem_of_fmap_2.
    + reflexivity.
    + split; [apply select_classes_perm|apply select_classes_sorted].
  - unfold manage_classes_view, get_classes. simpl. by rewrite with_store_id.
Qed.

(** For an admin, deleting an id that names no class answers 200 "Class
    deleted" all the same, and nothing changes. *)
Theorem delete_class_unknown_id cid w :
  logged_in_as "admin" w →
  Forall (λ k, class_id k ≠ cid) (classes (store w)) →
  delete_class cid w = (Returned (Response 200 (message "Class deleted")), w).
Proof.
  intros Hadmin Hnone. unfold delete_class.
  rewrite (login_required_pass "admin" _ cid w Hadmin).
  unfold delete_class_view, delete_class_row. simpl.
  rewrite decide_False.
  - simpl. by rewrite filter_all, set_classes_id, with_store_id.
  - intros [(k & Hin & Hk)%Exists_exists _].
    by apply (proj1 (Forall_forall _ _) Hnone k).
Qed.

(** After an admin has deleted a class that nothing references, the listing
    of [get_classes] has the entries of the classes that carry another id,
    and only those. *)
Theorem deleted_class_leaves_listing cid w :
  logged_in_as "admin" w → ¬ referenced cid (store w) →
  let w' := (delete_class cid w).2 in
  ∃ rows,
    get_classes tt w'
    = (Returned (Response 200 (JObj [("classes", JArr (class_json <$> rows))])),
       w')
    ∧ ∀ row, row ∈ rows
             ↔ ∃ k, k ∈ classes (store w) ∧ class_id k ≠ cid
                    ∧ row = (class_id k, class_name k).
Proof.
  intros Hadmin Hfree w'.
  exists (select_classes (get_db_connection (store w'))). split; [done|].
  intros row. rewrite select_classes_elem. subst w'.
  unfold delete_class. rewrite (login_required_pass "admin" _ cid w Hadmin).
  unfold delete_class_view, delete_class_row. simpl.
  rewrite decide_False by (by intros [_ Href]). simpl. split.
  - intros (k & [Hk Hin]%list_elem_of_filter & ->). by exists k.
  - intros (k & Hin & Hk & ->). exists k. split; [|done].
    by apply list_elem_of_filter.
Qed.
End class_properties.

(** ** Report generation, continued *)

Lemma recent_attendance_own (sid : option Z) (db : database)
  (r : attendance_row) :
  r ∈ recent_attendance sid db →
  sql_eq (att_student_id r) sid ∧ r ∈ attendance db.
Proof.
  unfold recent_attendance. intros Hin%subseteq_take.
  rewrite merge_sort_Permutation in Hin.
  by apply list_elem_of_filter in Hin.
Qed.

Section report_more.
Context {env : Collaborators}.
Implicit Types (sid : option Z) (w : world) (name : string).

(** For a teacher, with the service credential configured, asking about an
    id that no student row carries (or sending no id) answers 404 "Student
    not found"; the service is not called and nothing changes. *)
Theorem report_unknown_student sid w :
  logged_in_as "teacher" w →
  truthy_str GEMINI_API_KEY = true →
  Forall (λ s, ¬ sql_eq (student_id s) sid) (students (store w)) →
  generate_student_report sid w
  = (Returned (Response 404 (message "Student not found")), w).
Proof.
  intros Hteacher Hkey Hnone. unfold generate_student_report.
  rewrite (login_required_pass "teacher" _ sid w Hteacher).
  unfold generate_student_report_view. rewrite Hkey. simpl.
  unfold select_student_name. simpl. by rewrite filter_none.
Qed.

(** When the service raises, the view has called it once, with the prompt
    built from the student's rows, and answers 500 with the fixed sentence
    followed by the text of the exception; the call is not repeated and the
    store is as before. *)
Theorem report_upstream_failure sid w name (e : string) :
  logged_in_as "teacher" w →
  truthy_str GEMINI_API_KEY = true →
  student_named sid w name →
  attendance_of sid (store w) ≠ [] →
  let prompt :=
    render_prompt name
      (join ", " (render_row <$> recent_attendance sid (store w))) in
  generate_content prompt = inr e →
  generate_student_report sid w
  = (Returned
       (Response 500
          (message ("Failed to generate report due to an AI service error: "
                    +:+ e))),
     with_call w prompt).
Proof.
  intros Hteacher Hkey Hname Hrows prompt Hfail.
  unfold generate_student_report.
  rewrite (login_required_pass "teacher" _ sid w Hteacher).
  rewrite (report_view_with_records sid w name Hkey Hname).
  - fold prompt. by rewrite Hfail.
  - intros Hnil. pose proof (recent_attendance_length sid (store w)) as Hlen.
    rewrite Hnil in Hlen. simpl in Hlen.
    destruct (attendance_of sid (store w)); [done|]. simpl in Hlen. lia.
Qed.

(** With no service credential configured, every report request of a
    teacher answers 500 with the not-configured message before the store
    is looked at: also for a student that does not exist or has no rows. *)
Theorem report_without_key sid w :
  logged_in_as "teacher" w →
  truthy_str GEMINI_API_KEY = false →
  generate_student_report sid w
  = (Returned
       (Response 500
          (message "Gemini API key is not configured on the server.")), w).
Proof.
  intros Hteacher Hkey. unfold generate_student_report.
  rewrite (login_required_pass "teacher" _ sid w Hteacher).
  by apply report_view_without_key.
Qed.

Lemma report_view_reads_store sid w :
  (generate_student_report_view sid w).1
  = (generate_student_report_view sid (World (store w) ∅ [])).1.
Proof.
  unfold generate_student_report_view. simpl.
  destruct (negb _); [done|].
  destruct (fetchone _); [|done].
  destruct (select_attendance _ _); [done|].
  by destruct (generate_content _).
Qed.

(** The report does not depend on who asks: two teachers' sessions over
    the same store get the same response for the same student id.  No
    link between the teacher and the student is looked up. *)
Theorem report_ignores_requester sid w1 w2 :
  logged_in_as "teacher" w1 → logged_in_as "teacher" w2 →
  store w1 = store w2 →
  (generate_student_report sid w1).1 = (generate_student_report sid w2).1.
Proof.
  intros H1 H2 Hstore. unfold generate_student_report.
  rewrite (login_required_pass "teacher" _ sid w1 H1).
  rewrite (login_required_pass "teacher" _ sid w2 H2).
  rewrite (report_view_reads_store sid w1), (report_view_reads_store sid w2).
  by rewrite Hstore.
Qed.

(** Whatever the session and the student id, a report request leaves the
    store and the session as they were and calls the service at most once:
    the log of prompts is unchanged or longer by one. *)
Theorem report_effects sid w :
  store (generate_student_report sid w).2 = store w
  ∧ session (generate_student_report sid w).2 = session w
  ∧ (gemini_calls (generate_student_report sid w).2 = gemini_calls w
     ∨ ∃ prompt,
         gemini_calls (generate_student_report sid w).2
         = (gemini_calls w ++ [prompt])%list).
Proof.
  unfold generate_student_report.
  destruct (gate_runs_or_rejects (Some "teacher")
              generate_student_report_view sid w) as [-> | ->]; [auto|].
  unfold generate_student_report_view.
  destruct (negb _); [auto|].
  destruct (fetchone _); [|auto].
  destruct (select_attendance _ _); [auto|].
  destruct (generate_content _); simpl; eauto.
Qed.

(** The rows read for a report are rows of the attendance table that carry
    the requested student id: no other student's attendance reaches the
    prompt. *)
Theorem report_rows_belong_to_student sid w (record : Z * string) :
  record ∈ select_attendance sid (get_db_connection (store w)) →
  ∃ r, r ∈ attendance (store w) ∧ sid = Some (att_student_id r)
       ∧ record = (att_date r, att_status r).
Proof.
  unfold select_attendance. simpl.
  intros (r & -> & [Hsid Hin]%recent_attendance_own)%list_elem_of_fmap.
  by exists r.
Qed.
End report_more.

Lemma report_unknown_student_witness :
  generate_student_report (env:=Sample.env) (Some 99) Sample.as_teacher
  = (Returned (Response 404 (message "Student not found")), Sample.as_teacher).
Proof.
  apply (report_unknown_student (env:=Sample.env)).
  - split; [vm_compute; discriminate | reflexivity].
  - reflexivity.
  - repeat constructor; vm_compute; discriminate.
Defined.

Lemma report_upstream_failure_witness :
  (generate_student_report (env:=Outage.env) (Some 1) Sample.as_teacher).1
  = Returned
      (Response 500
         (message "Failed to generate report due to an AI service error: quota exceeded")).
Proof.
  rewrite (report_upstream_failure (env:=Outage.env) (Some 1) Sample.as_teacher
             "Cy" "quota exceeded").
  - reflexivity.
  - split; [vm_compute; discriminate | reflexivity].
  - reflexivity.
  - reflexivity.
  - vm_compute. discriminate.
  - reflexivity.
Defined.

Lemma report_without_key_witness :
  generate_student_report (env:=Sample.env_no_key) (Some 99) Sample.as_teacher
  = (Returned
       (Response 500
          (message "Gemini API key is not configured on the server.")),
     Sample.as_teacher).
Proof.
  apply (report_without_key (env:=Sample.env_no_key)).
  - split; [vm_compute; discriminate | reflexivity].
  - reflexivity.
Defined.

Lemma report_ignores_requester_witness :
  (generate_student_report (env:=Sample.env) (Some 1) Sample.as_teacher).1
  = (generate_student_report (env:=Sample.env) (Some 1)
       (with_session Sample.as_teacher
          (<["user_id" := PInt 2]> (session Sample.as_teacher)))).1.
Proof.
  apply (report_ignores_requester (env:=Sample.env)).
  - split; [vm_compute; discriminate | reflexivity].
  - split; [vm_compute; discriminate | reflexivity].
  - reflexivity.
Defined.

Lemma report_rows_belong_to_student_witness :
  ∃ r, r ∈ attendance Sample.db ∧ Some 1 = Some (att_student_id r)
       ∧ (12, "absent") = (att_date r, att_status r).
Proof.
  apply (report_rows_belong_to_student (Some 1)
           Sample.as_teacher (12, "absent")).
  vm_compute. apply list_elem_of_here.
Defined.

Lemma manage_classes_creates_and_lists_witness :
  (∃ new_id,
      classes (store (manage_classes (env:=Sample.env)
                        (collation:=Bytewise.collation)
                        (CreateClass "0Z") Sample.as_admin).2)
      = [ClassRow 1 "1A"; ClassRow 2 "2B"; ClassRow new_id "0Z"])
  ∧ manage_classes (env:=Sample.env) (collation:=Bytewise.collation)
      ListClasses Sample.as_admin
    = get_classes (collation:=Bytewise.collation) tt Sample.as_admin.
Proof.
  assert (Hadmin : logged_in_as "admin" Sample.as_admin).
  { split; [vm_compute; discriminate | reflexivity]. }
  destruct (manage_classes_creates_and_lists (env:=Sample.env)
              (collation:=Bytewise.collation)
              Sample.as_admin "0Z" Hadmin)
    as ((new_id & rows & _ & Hrun & _) & Hlist).
  split; [exists new_id; by rewrite Hrun | exact Hlist].
Defined.

Lemma delete_class_unknown_id_witness :
  delete_class (env:=Sample.env) 9 Sample.as_admin
  = (Returned (Response 200 (message "Class deleted")), Sample.as_admin).
Proof.
  apply (delete_class_unknown_id (env:=Sample.env)).
  - split; [vm_compute; discriminate | reflexivity].
  - repeat constructor; simpl; discriminate.
Defined.

Lemma deleted_class_leaves_listing_witness :
  let w' := (delete_class (env:=Sample.env) 2 Sample.as_admin).2 in
  ∃ rows,
    get_classes (collation:=Bytewise.collation) tt w'
    = (Returned (Response 200 (JObj [("classes", JArr (class_json <$> rows))])),
       w')
    ∧ (1, "1A") ∈ rows ∧ (2, "2B") ∉ rows.
Proof.
  intros w'.
  destruct (deleted_class_leaves_listing (env:=Sample.env)
              (collation:=Bytewise.collation) 2 Sample.as_admin)
    as (rows & Hrun & Hrows).
  - split; [vm_compute; discriminate | reflexivity].
  - apply (bool_decide_unpack _). by vm_compute.
  - exists rows. split; [exact Hrun|]. split.
    + apply Hrows. exists (ClassRow 1 "1A").
      split; [apply list_elem_of_here|]. split; [discriminate | reflexivity].
    + intros (k & _ & Hk & Heq)%Hrows. injection Heq as Hid _. by apply Hk.
Defined.

(** ** The class of a teacher *)

Lemma NoDup_fmap_eq {A B : Type} (f : A → B) (l : list A) (x y : A) :
  NoDup (f <$> l) → x ∈ l → y ∈ l → f x = f y → x = y.
Proof.
  induction l as [|z l IH]; intros Hnodup Hx Hy Heq.
  - by apply elem_of_nil in Hx.
  - rewrite fmap_cons in Hnodup. apply NoDup_cons in Hnodup as [Hz Hl].
    apply elem_of_cons in Hx as [-> | Hx];
      apply elem_of_cons in Hy as [-> | Hy]; try done.
    + exfalso. apply Hz. rewrite Heq. by apply list_elem_of_fmap_2.
    + exfalso. apply Hz. rewrite <- Heq. by apply list_elem_of_fmap_2.
    + by apply IH.
Qed.

Lemma head_of_constant {A : Type} (l : list A) (x : A) :
  x ∈ l → (∀ y, y ∈ l → y = x) → head l = Some x.
Proof.
  destruct l as [|z l]; intros Hin Hall.
  - by apply elem_of_nil in Hin.
  - simpl. f_equal. apply Hall. apply list_elem_of_here.
Qed.

Lemma select_teacher_class_elem (uid : pyval) (c : connection)
  (row : Z * string) :
  row ∈ select_teacher_class uid c
  ↔ ∃ k t, k ∈ classes (pending c) ∧ t ∈ teachers (pending c)
           ∧ class_id k = teacher_class_id t ∧ uid = PInt (teacher_id t)
           ∧ row = (class_id k, class_name k).
Proof.
  unfold select_teacher_class. rewrite list_elem_of_bind. split.
  - intros (k & Hrow & Hk).
    apply list_elem_of_bind in Hrow
      as (t & Hrow & [[Hclass Hid] Ht]%list_elem_of_filter).
    apply list_elem_of_singleton in Hrow. by exists k, t.
  - intros (k & t & Hk & Ht & Hclass & Hid & ->).
    exists k. split; [|done]. apply list_elem_of_bind.
    exists t. split; [by apply list_elem_of_singleton|].
    by apply list_elem_of_filter.
Qed.

Section teacher_class.
Context {collation : Collation}.
Implicit Types (w : world) (uid : Z).

Global Instance by_student_name_total : Total by_student_name.
Proof. intros s1 s2. unfold by_student_name. apply total, _. Qed.

Global Instance by_student_name_trans : Transitive by_student_name.
Proof. intros s1 s2 s3. unfold by_student_name. apply transitivity. Qed.

(** For a logged-in teacher whose row points at a class, in a store whose
    keys hold: the answer is 200 with the id and name of that class and a
    roster that has one entry for every student of the class and no other,
    in ascending order of name; nothing changes. *)
Theorem teacher_class_roster w uid (t : teacher_row) (k : class_row) :
  logged_in_as "teacher" w →
  session w !! "user_id" = Some (PInt uid) →
  store_consistent (store w) →
  t ∈ teachers (store w) → teacher_id t = uid →
  k ∈ classes (store w) → class_id k = teacher_class_id t →
  ∃ rows,
    get_teacher_class tt w
    = (Returned
         (Response 200
            (JObj [("class", JObj [("id", JNum (class_id k));
                                   ("name", JStr (class_name k))]);
                   ("students", JArr (student_json <$> rows))])), w)
    ∧ rows ≡ₚ (λ s, (student_id s, student_name s, student_username s))
                <$> filter (λ s, student_class_id s = class_id k)
                      (students (store w))
    ∧ StronglySorted rostered_by_name rows.
Proof.
  intros Hteacher Huid (_ & _ & Hids & Hcls) Ht Hid Hk Hclass.
  exists (select_class_students (class_id k) (get_db_connection (store w))).
  split; [|split].
  - unfold get_teacher_class.
    rewrite (login_required_pass "teacher" _ tt w Hteacher).
    unfold get_teacher_class_view. rewrite Huid.
    assert (fetchone (select_teacher_class (PInt uid)
                        (get_db_connection (store w)))
            = Some (class_id k, class_name k)) as ->; [|done].
    apply head_of_constant.
    + apply select_teacher_class_elem. exists k, t. simpl.
      repeat split; try done. by rewrite Hid.
    + intros row (k' & t' & Hk' & Ht' & Hclass' & Hid' & ->)%select_teacher_class_elem.
      simpl in *. injection Hid' as Hid'.
      assert (t' = t) as ->.
      { apply (NoDup_fmap_eq teacher_id (teachers (store w))); try done.
        congruence. }
      assert (k' = k) as ->; [|done].
      apply (NoDup_fmap_eq class_id (classes (store w))); try done.
      congruence.
  - unfold select_class_students. simpl. by rewrite merge_sort_Permutation.
  - unfold select_class_students.
    apply (StronglySorted_fmap _ by_student_name); [by intros s1 s2|].
    apply StronglySorted_merge_sort; apply _.
Qed.

(** For a logged-in teacher whose id no teacher row carries, the answer is
    404 "Could not find assigned class" and nothing changes. *)
Theorem teacher_class_not_found w uid :
  logged_in_as "teacher" w →
  session w !! "user_id" = Some (PInt uid) →
  Forall (λ t, teacher_id t ≠ uid) (teachers (store w)) →
  get_teacher_class tt w
  = (Returned (Response 404 (message "Could not find assigned class")), w).
Proof.
  intros Hteacher Huid Hnone. unfold get_teacher_class.
  rewrite (login_required_pass "teacher" _ tt w Hteacher).
  unfold get_teacher_class_view. rewrite Huid.
  destruct (fetchone _) as [row|] eqn:Hrow; [|done].
  apply head_Some_elem_of in Hrow.
  apply select_teacher_class_elem
    in Hrow as (k & t & _ & Ht & _ & Hid & _).
  simpl in Ht. injection Hid as Hid.
  exfalso. by apply (proj1 (Forall_forall _ _) Hnone t).
Qed.
End teacher_class.

Lemma teacher_class_roster_witness :
  (get_teacher_class (collation:=Bytewise.collation) tt Sample.as_teacher).1
  = Returned
      (Response 200
         (JObj [("class", JObj [("id", JNum 1); ("name", JStr "1A")]);
                ("students",
                 JArr [JObj [("id", JNum 1); ("name", JStr "Cy");
                             ("username", JStr "cy")];
                       JObj [("id", JNum 2); ("name", JStr "Di");
                             ("username", JStr "di")]])])).
Proof.
  destruct (teacher_class_roster (collation:=Bytewise.collation)
              Sample.as_teacher 1
              (TeacherRow 1 "Ann" "ann@x.com" (Sample.hash_of "pa") 1 None true)
              (ClassRow 1 "1A")) as (rows & Hrun & _).
  - split; [vm_compute; discriminate | reflexivity].
  - reflexivity.
  - apply (bool_decide_unpack _). by vm_compute.
  - apply list_elem_of_here.
  - reflexivity.
  - apply list_elem_of_here.
  - reflexivity.
  - reflexivity.
Defined.

Lemma teacher_class_not_found_witness :
  let w := with_session Sample.as_teacher
             (<["user_id" := PInt 7]> (session Sample.as_teacher)) in
  get_teacher_class (collation:=Bytewise.collation) tt w
  = (Returned (Response 404 (message "Could not find assigned class")), w).
Proof.
  intros w.
  apply (teacher_class_not_found (collation:=Bytewise.collation) w 7).
  - split; [vm_compute; discriminate | reflexivity].
  - reflexivity.
  - repeat constructor; simpl; discriminate.
Defined.
